(** * ytmad: a shallow embedding of [ytmad.py]

    The script drives the external [yt-dlp] binary: it probes that the
    binary runs, checks the URL, asks the binary for the playlist's
    metadata (one JSON object per line), asks the operator to confirm and
    runs the download.

    Python values are modelled as the script has them: [str] as a string of
    UTF-8 bytes, the objects [json.loads] returns as the type [json], the
    two dictionaries the script builds as records.  Effects (printing,
    subprocesses, the prompt, [mkdir], [sys.exit] and exceptions) are
    threaded through a state and exception monad whose state holds the
    trace of the run and the filesystem.  What the outside does (how a
    subprocess ends, what the operator types) is a parameter of the run,
    and so is [json.loads].  Writing to the terminal is taken to succeed.
    [extract_playlist_id], which the script defines and never calls, is
    modelled with a backtracking matcher for its two patterns. *)

From stdpp Require Import gmap strings list fin_maps pretty.
From Stdlib Require Import ZArith Ascii.

Set Warnings "-register-all".
#[local] Open Scope Z_scope.

(** ** Python [str] operations used by the script *)

Module Str.

(** [sub in s] for two strings. *)
Fixpoint str_in (sub s : string) : bool :=
  String.prefix sub s ||
  match s with
  | EmptyString => false
  | String _ s' => str_in sub s'
  end.

(** [s * n]. *)
Fixpoint repeat (s : string) (n : nat) : string :=
  match n with
  | O => EmptyString
  | S n' => s +:+ repeat s n'
  end.

(** [str.lower()] on the ASCII range.  The script only compares the result
    with ['y'], and ['Y'] is the only character of Unicode whose lower
    case is ['y'], so the comparison is the one Python makes. *)
Definition lower_ascii (c : ascii) : ascii :=
  let n := N_of_ascii c in
  if ((65 <=? n) && (n <=? 90))%N then ascii_of_N (n + 32) else c.

Fixpoint lower (s : string) : string :=
  match s with
  | EmptyString => EmptyString
  | String c s' => String (lower_ascii c) (lower s')
  end.

(** [s.split(sep)] for a one-character separator: never the empty list. *)
Fixpoint split (sep : ascii) (s : string) : list string :=
  match s with
  | EmptyString => [EmptyString]
  | String c s' =>
      if Ascii.eqb c sep then EmptyString :: split sep s'
      else match split sep s' with
           | [] => [String c EmptyString]
           | w :: ws => String c w :: ws
           end
  end.

(** UTF-8 encoding of a code point below U+10000. *)
Definition utf8 (cp : N) : string :=
  if (cp <? 128)%N then String (ascii_of_N cp) EmptyString
  else if (cp <? 2048)%N then
    String (ascii_of_N (192 + cp / 64))
      (String (ascii_of_N (128 + cp mod 64)) EmptyString)
  else
    String (ascii_of_N (224 + cp / 4096))
      (String (ascii_of_N (128 + (cp / 64) mod 64))
         (String (ascii_of_N (128 + cp mod 64)) EmptyString)).

(** The characters [str.isspace] accepts, which [str.strip()] removes. *)
Definition whitespace : list N :=
  [9; 10; 11; 12; 13; 28; 29; 30; 31; 32; 133; 160; 5760;
   8192; 8193; 8194; 8195; 8196; 8197; 8198; 8199; 8200; 8201; 8202;
   8232; 8233; 8239; 8287; 12288]%N.

Definition drop_prefix (p s : string) : option string :=
  if String.prefix p s
  then Some (String.substring (String.length p)
               (String.length s - String.length p) s)
  else None.

Fixpoint first_some {A B} (f : A → option B) (l : list A) : option B :=
  match l with
  | [] => None
  | x :: l' => match f x with Some y => Some y | None => first_some f l' end
  end.

(** Remove leading occurrences of the tokens; at most [fuel] of them. *)
Fixpoint lstrip_with (toks : list string) (fuel : nat) (s : string) : string :=
  match fuel with
  | O => s
  | S fuel' =>
      match first_some (λ t, drop_prefix t s) toks with
      | Some s' => lstrip_with toks fuel' s'
      | None => s
      end
  end.

Definition lstrip (s : string) : string :=
  lstrip_with (utf8 <$> whitespace) (String.length s) s.

Definition rstrip (s : string) : string :=
  String.rev
    (lstrip_with (String.rev ∘ utf8 <$> whitespace) (String.length s)
       (String.rev s)).

Definition strip (s : string) : string := rstrip (lstrip s).

End Str.

(** ** The objects [json.loads] returns *)

(** A float is kept as its IEEE 754 binary64 bit pattern. *)
Inductive json :=
| JNull
| JBool (b : bool)
| JInt (n : Z)
| JFloat (bits : Z)
| JStr (s : string)
| JList (l : list json)
| JDict (d : gmap string json).

(** Python's truth value of an object: [bool(v)]. *)
Definition truthy (v : json) : bool :=
  match v with
  | JNull => false
  | JBool b => b
  | JInt n => negb (n =? 0)
  | JFloat bits => negb (bits `mod` 2 ^ 63 =? 0)
  | JStr s => negb (String.eqb s EmptyString)
  | JList l => match l with [] => false | _ => true end
  | JDict d => negb (bool_decide (d = ∅))
  end.

(** [k in data] for a string [k]; [None] is the [TypeError] Python raises
    when [data] is not a container. *)
Definition contains (k : string) (data : json) : option bool :=
  match data with
  | JDict d => Some (bool_decide (is_Some (d !! k)))
  | JList l =>
      Some (existsb (λ x, match x with JStr s => String.eqb k s | _ => false end) l)
  | JStr s => Some (Str.str_in k s)
  | JNull | JBool _ | JInt _ | JFloat _ => None
  end.

(** [data[k]] for a string [k]; [None] is the [KeyError] of a dictionary
    without the key, or the [TypeError] of any other object. *)
Definition getitem (data : json) (k : string) : option json :=
  match data with
  | JDict d => d !! k
  | _ => None
  end.

(** The dictionary appended to [videos], and the one returned. *)
Record TrackRecord := { track_title : json; track_id : json }.

Record PlaylistInfo := {
  info_title : json;
  info_count : Z;
  info_videos : list TrackRecord
}.

(** ** The filesystem, as [Path.mkdir] sees it *)

(** A path is the list of its components ([pathlib]'s [parts]); the empty
    list is the current directory.  Components are not resolved: the model
    has no links and gives [..] no meaning. *)
Definition path := list string.

Record filesystem := { dirs : gset path; files : gset path }.

(** [Path(s).parts]: empty components and [.] are dropped, a leading slash
    is the anchor. *)
Definition path_parts (s : string) : path :=
  let comps :=
    filter (λ c, c ≠ EmptyString ∧ c ≠ ".") (Str.split "/" s) in
  if String.prefix "/" s then "/" :: comps else comps.

Definition parent (p : path) : path :=
  match p with
  | ["/"] => p
  | _ => removelast p
  end.

(** ** Exceptions, events and the monad of the script *)

Inductive exn :=
| CalledProcessError (returncode : Z) (cmd : list string)
| FileNotFoundError
| FileExistsError
| NotADirectoryError
| KeyboardInterrupt
| EOFError
| IndexError
| SystemExit (code : Z).

(** What a run does to the outside, in order.  A subprocess is recorded
    with the filesystem it starts in. *)
Inductive event :=
| EvPrint (text : string)
| EvRun (cmd : list string) (seen : filesystem)
| EvInput (prompt : string)
| EvMkdir (p : path).

Record state := { trace : list event; fs : filesystem }.

Inductive result (A : Type) :=
| Return (a : A)
| Raise (e : exn).
Arguments Return {A} a.
Arguments Raise {A} e.

Definition M (A : Type) : Type := state → result A * state.

#[global] Instance M_ret : MRet M := λ A a s, (Return a, s).

#[global] Instance M_bind : MBind M := λ A B f m s,
  match m s with
  | (Return a, s') => f a s'
  | (Raise e, s') => (Raise e, s')
  end.

Definition raise {A} (e : exn) : M A := λ s, (Raise e, s).

Definition log (ev : event) : M unit := λ s,
  (Return tt, {| trace := trace s ++ [ev]; fs := fs s |}).

(** [try: body except ...: handler]; the handler is [None] on the
    exceptions no clause matches, which propagate. *)
Definition try_except {A} (body : M A) (handler : exn → option (M A)) : M A :=
  λ s,
    match body s with
    | (Return a, s') => (Return a, s')
    | (Raise e, s') =>
        match handler e with
        | Some h => h s'
        | None => (Raise e, s')
        end
    end.

(** [if c: body] for a body that returns nothing. *)
Definition when_ (c : bool) (body : M unit) : M unit :=
  if c then body else mret tt.

Definition print (text : string) : M unit := log (EvPrint text).

Definition sys_exit {A} (code : Z) : M A := raise (SystemExit code).

(** [os.mkdir]. *)
Definition os_mkdir (p : path) : M unit := λ s,
  let f := fs s in
  if bool_decide (p ∈ dirs f ∨ p ∈ files f) then (Raise FileExistsError, s)
  else if bool_decide (parent p ∈ files f) then (Raise NotADirectoryError, s)
  else if bool_decide (parent p ∈ dirs f)
       then (Return tt,
             {| trace := trace s;
                fs := {| dirs := {[p]} ∪ dirs f; files := files f |} |})
       else (Raise FileNotFoundError, s).

Definition is_dir (p : path) : M bool := λ s,
  (Return (bool_decide (p ∈ dirs (fs s))), s).

(** [Path.mkdir(exist_ok=...)] with [parents] left at its default [False]:
    a [FileNotFoundError] of [os.mkdir] is raised again, any other
    [OSError] is raised again unless [exist_ok] holds and the path is a
    directory. *)
Definition Path_mkdir (p : path) (exist_ok : bool) : M unit :=
  log (EvMkdir p);;
  try_except (os_mkdir p)
    (λ e,
       match e with
       | FileNotFoundError => None
       | FileExistsError | NotADirectoryError =>
           Some (d ← is_dir p;
                 if negb exist_ok || negb d then raise e else mret tt)
       | _ => None
       end).

(** ** The environment of a run *)

(** How a subprocess ends: it exits with a status and what it wrote to its
    standard output, the binary is not found, or the operator interrupts
    the wait. *)
Inductive proc_result :=
| Exited (returncode : Z) (stdout : string)
| NoSuchFile
| Interrupted.

(** What [input] meets: a line (without its newline), the end of the
    input, or the operator's interrupt. *)
Inductive input_result :=
| Line (s : string)
| EndOfFile
| Break.

(** The script runs each command and asks each question at most once, so
    the environment answers by command and by prompt. *)
Record world := {
  argv0 : string;
  args : list string;
  run_process : list string → proc_result;
  read_input : string → input_result
}.

Definition sys_argv (w : world) : list string := argv0 w :: args w.

(** The parts of the Python library the script calls and this file does
    not define: [json.loads] ([None] when it raises), [str()] of an object
    and of an exception, as the f-strings format them. *)
Class PyLib := {
  json_loads : string → option json;
  py_str : json → string;
  exn_str : exn → string
}.

Definition nl : string := String "010"%char EmptyString.

(** ** The script *)

Section Script.

Context `{PyLib}.

(** *** Parsing the metadata probe's output *)

(** The two variables the loop of [get_playlist_info] updates.
    [playlist_title] starts as Python's [None], which is also what
    [json.loads] returns for [null]. *)
Record scan := { videos : list TrackRecord; playlist_title : json }.

(** [if 'title' in data and 'id' in data: videos.append({...})]; [None]
    when the statement raises (nothing is appended then: the dictionary is
    built before [append] is called). *)
Definition append_video (data : json) (st : scan) : option scan :=
  has_title ← contains "title" data;
  both ← (if has_title : bool then contains "id" data else Some false);
  if both : bool then
    t ← getitem data "title";
    i ← getitem data "id";
    Some {| videos := videos st ++ [{| track_title := t; track_id := i |}];
            playlist_title := playlist_title st |}
  else Some st.

(** [if not playlist_title and 'playlist_title' in data:
       playlist_title = data['playlist_title']]. *)
Definition pick_title (data : json) (st : scan) : option scan :=
  if negb (truthy (playlist_title st)) then
    has ← contains "playlist_title" data;
    if has : bool then
      v ← getitem data "playlist_title";
      Some {| videos := videos st; playlist_title := v |}
    else Some st
  else Some st.

(** The body of [for line in lines]: the bare [except] swallows whatever
    the [try] block raises and keeps what was updated before. *)
Definition scan_line (st : scan) (line : string) : scan :=
  if String.eqb line EmptyString then st
  else
    match json_loads line with
    | None => st
    | Some data =>
        match append_video data st with
        | None => st
        | Some st1 =>
            match pick_title data st1 with
            | None => st1
            | Some st2 => st2
            end
        end
    end.

(** [result.stdout.strip().split('\n')]. *)
Definition stdout_lines (stdout : string) : list string :=
  Str.split "010" (Str.strip stdout).

(** [playlist_title or 'Unknown Playlist']. *)
Definition title_or_unknown (t : json) : json :=
  if truthy t then t else JStr "Unknown Playlist".

(** Lines 60 to 84: from the captured output to the returned dictionary. *)
Definition playlist_of_stdout (stdout : string) : PlaylistInfo :=
  let st :=
    foldl scan_line {| videos := []; playlist_title := JNull |}
      (stdout_lines stdout) in
  {| info_title := title_or_unknown (playlist_title st);
     info_count := Z.of_nat (length (videos st));
     info_videos := videos st |}.

(** *** Calls into the environment *)

Context (w : world).

(** [subprocess.run(cmd, check=check)]: the completed process's status and
    output, or the exception. *)
Definition subprocess_run (cmd : list string) (check : bool) : M (Z * string) :=
  λ s,
    let s' := {| trace := trace s ++ [EvRun cmd (fs s)]; fs := fs s |} in
    match run_process w cmd with
    | Exited rc out =>
        if check && negb (rc =? 0)
        then (Raise (CalledProcessError rc cmd), s')
        else (Return (rc, out), s')
    | NoSuchFile => (Raise FileNotFoundError, s')
    | Interrupted => (Raise KeyboardInterrupt, s')
    end.

(** [input(prompt)]. *)
Definition input (prompt : string) : M string :=
  log (EvInput prompt);;
  match read_input w prompt with
  | Line r => mret r
  | EndOfFile => raise EOFError
  | Break => raise KeyboardInterrupt
  end.

(** [sys.argv[i]]. *)
Definition argv_item (i : nat) : M string :=
  match sys_argv w !! i with
  | Some a => mret a
  | None => raise IndexError
  end.

(** *** The functions of the script *)

Definition version_cmd : list string := ["yt-dlp"; "--version"].

Definition check_dependencies : M bool :=
  try_except
    (subprocess_run version_cmd true;;
     mret true)
    (λ e,
       match e with
       | CalledProcessError _ _ | FileNotFoundError =>
           Some (print "❌ yt-dlp не установлен!";;
                 print (nl +:+ "Установите его командой:");;
                 print "  pip install yt-dlp";;
                 print (nl +:+ "Или:");;
                 print "  pip3 install yt-dlp";;
                 mret false)
       | _ => None
       end).

Definition probe_cmd (url : string) : list string :=
  ["yt-dlp"; "--dump-json"; "--flat-playlist"; url].

(** [None] is Python's [None]. *)
Definition get_playlist_info (url : string) : M (option PlaylistInfo) :=
  try_except
    (print "📋 Получаю информацию о плейлисте...";;
     completed ← subprocess_run (probe_cmd url) true;
     mret (Some (playlist_of_stdout completed.2)))
    (λ e,
       match e with
       | CalledProcessError _ _ =>
           Some (print ("❌ Ошибка при получении информации: " +:+ exn_str e);;
                 mret None)
       | _ => None
       end).

Definition download_cmd (url output_dir : string) : list string :=
  ["yt-dlp";
   "--extract-audio";
   "--audio-format"; "mp3";
   "--audio-quality"; "0";
   "--embed-thumbnail";
   "--add-metadata";
   "--output"; output_dir +:+ "/%(playlist_index)s - %(title)s.%(ext)s";
   "--yes-playlist";
   "--ignore-errors";
   "--no-warnings";
   "--progress";
   url].

Definition download_album (url output_dir : string) : M bool :=
  Path_mkdir (path_parts output_dir) true;;
  print (nl +:+ "🎵 Начинаю скачивание альбома...");;
  print ("📁 Папка сохранения: " +:+ output_dir +:+ "/" +:+ nl);;
  try_except
    (subprocess_run (download_cmd url output_dir) true;;
     print (nl +:+ "✅ Скачивание завершено!");;
     print ("📂 Файлы сохранены в папке: " +:+ output_dir +:+ "/");;
     mret true)
    (λ e,
       match e with
       | CalledProcessError _ _ =>
           Some (print (nl +:+ "❌ Ошибка при скачивании: " +:+ exn_str e);;
                 mret false)
       | KeyboardInterrupt =>
           Some (print (nl +:+ nl +:+ "⚠️  Скачивание прервано пользователем");;
                 mret false)
       | _ => None
       end).

Definition cancel_message : string := "❌ Скачивание отменено".

Definition confirm_prompt (info : PlaylistInfo) : string :=
  nl +:+ "⚠️  Начать скачивание " +:+ pretty (info_count info)
     +:+ " треков? (y/n): ".

(** A valid URL, by the negation of the test of line 151. *)
Definition youtube_url (url : string) : bool :=
  Str.str_in "youtube.com" url || Str.str_in "youtu.be" url.

Definition main : M unit :=
  print (Str.repeat "=" 60);;
  print "🎵 YouTube Album Downloader";;
  print (Str.repeat "=" 60);;
  ok ← check_dependencies;
  when_ (negb ok) (sys_exit 1);;
  when_ (length (sys_argv w) <? 2)%nat
    (print (nl +:+ "❌ Не указана ссылка на плейлист!");;
     print (nl +:+ "Использование:");;
     a0 ← argv_item 0;
     print ("  python " +:+ a0 +:+ " <URL_плейлиста>");;
     print (nl +:+ "Пример:");;
     a0 ← argv_item 0;
     print ("  python " +:+ a0 +:+ " 'https://www.youtube.com/playlist?list=...'");;
     sys_exit 1);;
  url ← argv_item 1;
  when_ (negb (Str.str_in "youtube.com" url) && negb (Str.str_in "youtu.be" url))
    (print "❌ Неверная ссылка! Укажите ссылку на YouTube плейлист.";;
     sys_exit 1);;
  info ← get_playlist_info url;
  (* [if info:] the dictionary returned has three keys, so it is true *)
  match info with
  | Some info =>
      print (nl +:+ "📋 Плейлист: " +:+ py_str (info_title info));;
      print ("🎵 Количество треков: " +:+ pretty (info_count info));;
      response ← input (confirm_prompt info);
      when_ (negb (String.eqb (Str.lower response) "y"))
        (print cancel_message;;
         sys_exit 0)
  | None => mret tt
  end;;
  output_dir ← (if (3 <=? length (sys_argv w))%nat
                then argv_item 2 else mret "downloads");
  success ← download_album url output_dir;
  if success : bool then print (nl +:+ "🎉 Готово! Приятного прослушивания!")
  else
    print (nl +:+ "⚠️  Скачивание завершено с ошибками");;
    sys_exit 1.

End Script.

(** ** Regular expressions, as [extract_playlist_id] uses them *)

Module Re.

(** One character of a pattern: a literal, or the class [[^c]]. *)
Inductive atom :=
| Lit (c : ascii)
| Except (c : ascii).

Definition accepts (a : atom) (c : ascii) : bool :=
  match a with
  | Lit x => Ascii.eqb x c
  | Except x => negb (Ascii.eqb x c)
  end.

(** The patterns of the script: characters in sequence, a greedy [+] over
    one character, and a capturing group (the script reads group 1). *)
Inductive regex :=
| Eps
| Atom (a : atom)
| Seq (r1 r2 : regex)
| Plus (a : atom)
| Group (r : regex).

(** The pattern that matches a string literally. *)
Fixpoint literal (s : string) : regex :=
  match s with
  | EmptyString => Eps
  | String c s' => Seq (Atom (Lit c)) (literal s')
  end.

(** What a group captured: [s] without its tail [rest]. *)
Definition consumed (s rest : string) : string :=
  String.substring 0 (String.length s - String.length rest) s.

(** Greedy [a*] followed by [k]: the longest run first, then, when [k]
    fails, the shorter ones. *)
Fixpoint star {R} (a : atom) (s : string) (k : string → option R) : option R :=
  match s with
  | String c s' =>
      if accepts a c
      then match star a s' k with
           | Some x => Some x
           | None => k s
           end
      else k s
  | EmptyString => k s
  end.

(** The backtracking matcher: [r] at the start of [s], then [k] on what is
    left and on what group 1 holds. *)
Fixpoint run {R} (r : regex) (s : string) (g : option string)
    (k : string → option string → option R) : option R :=
  match r with
  | Eps => k s g
  | Atom a =>
      match s with
      | String c s' => if accepts a c then k s' g else None
      | EmptyString => None
      end
  | Seq r1 r2 => run r1 s g (λ s' g', run r2 s' g' k)
  | Plus a =>
      match s with
      | String c s' => if accepts a c then star a s' (λ s'', k s'' g) else None
      | EmptyString => None
      end
  | Group r1 => run r1 s g (λ s' _, k s' (Some (consumed s s')))
  end.

(** [re.search(r, s)]: the match at the leftmost position that has one;
    of the match object the script reads [group(1)] only. *)
Fixpoint search (r : regex) (s : string) : option (option string) :=
  match run r s None (λ _ g, Some g) with
  | Some g => Some g
  | None =>
      match s with
      | String _ s' => search r s'
      | EmptyString => None
      end
  end.

End Re.

(** [r'list=([^&]+)']. *)
Definition list_pattern : Re.regex :=
  Re.Seq (Re.literal "list=") (Re.Group (Re.Plus (Re.Except "&"))).

(** [r'youtube\.com/playlist\?list=([^&]+)']. *)
Definition playlist_pattern : Re.regex :=
  Re.Seq (Re.literal "youtube.com/playlist?list=")
    (Re.Group (Re.Plus (Re.Except "&"))).

Definition patterns : list Re.regex := [list_pattern; playlist_pattern].

(** [for pattern in patterns: ... return match.group(1)], then
    [return None]. *)
Fixpoint first_group (ps : list Re.regex) (url : string) : option string :=
  match ps with
  | [] => None
  | pattern :: ps' =>
      match Re.search pattern url with
      | Some g => g
      | None => first_group ps' url
      end
  end.

Definition extract_playlist_id (url : string) : option string :=
  first_group patterns url.

(** The exit status of the process: 0 when [main] returns, the argument of
    [sys.exit], 1 after the traceback of any other exception, and 130 when
    a [KeyboardInterrupt] escapes (the interpreter dies of SIGINT). *)
Definition exit_status (r : result unit) : Z :=
  match r with
  | Return _ => 0
  | Raise (SystemExit code) => code
  | Raise KeyboardInterrupt => 130
  | Raise _ => 1
  end.

(** ** What the specification says, in its own words *)

Section Reading.

Context `{PyLib}.

(** The record of a line: a non-empty line that [json.loads] parses to an
    object with fields. *)
Definition record_of_line (line : string) : option (gmap string json) :=
  if String.eqb line EmptyString then None
  else
    match json_loads line with
    | Some (JDict d) => Some d
    | _ => None
    end.

(** The TrackRecord a line contributes: that of a record with both a title
    and an id field. *)
Definition track_of_line (line : string) : option TrackRecord :=
  d ← record_of_line line;
  t ← d !! "title";
  i ← d !! "id";
  Some {| track_title := t; track_id := i |}.

(** The value of the playlist-title field of a line's record. *)
Definition playlist_title_of_line (line : string) : option json :=
  d ← record_of_line line;
  d !! "playlist_title".

(** The title of the first record that carries a playlist-title field, or
    the sentinel. *)
Definition first_playlist_title (lines : list string) : json :=
  match omap playlist_title_of_line lines with
  | v :: _ => v
  | [] => JStr "Unknown Playlist"
  end.

(** The same over the fields whose value Python takes for true. *)
Definition first_true_playlist_title (lines : list string) : json :=
  match filter (λ v, truthy v = true) (omap playlist_title_of_line lines) with
  | v :: _ => v
  | [] => JStr "Unknown Playlist"
  end.

End Reading.

(** ** Observations on a run *)

(** The state a run of [main] starts in. *)
Definition start (f0 : filesystem) : state := {| trace := []; fs := f0 |}.

(** The commands run and the prompts shown, in order. *)
Definition commands (tr : list event) : list (list string) :=
  omap (λ ev, match ev with EvRun cmd _ => Some cmd | _ => None end) tr.

Definition prompts (tr : list event) : list string :=
  omap (λ ev, match ev with EvInput p => Some p | _ => None end) tr.

Definition probe_invoked (tr : list event) : Prop :=
  ∃ url, probe_cmd url ∈ commands tr.

Definition downloader_invoked (tr : list event) : Prop :=
  ∃ url dir, download_cmd url dir ∈ commands tr.

(** The lines [check_dependencies] prints when the binary does not run. *)
Definition install_instructions : list string :=
  ["❌ yt-dlp не установлен!";
   nl +:+ "Установите его командой:";
   "  pip install yt-dlp";
   nl +:+ "Или:";
   "  pip3 install yt-dlp"].

Definition banner : list string :=
  [Str.repeat "=" 60; "🎵 YouTube Album Downloader"; Str.repeat "=" 60].

(** The binary is absent from the path, or exits with a non-zero status. *)
Definition dependency_unavailable (w : world) : Prop :=
  run_process w version_cmd = NoSuchFile ∨
  ∃ rc out, rc ≠ 0 ∧ run_process w version_cmd = Exited rc out.

(** The state after more events. *)
Definition emit (evs : list event) (s : state) : state :=
  {| trace := trace s ++ evs; fs := fs s |}.

(** [Path.mkdir(exist_ok=True)] goes through: the path is a directory
    already, or it is free and its parent is a directory. *)
Definition can_make (f : filesystem) (p : path) : bool :=
  bool_decide (p ∈ dirs f) ||
  (negb (bool_decide (p ∈ files f)) &&
   negb (bool_decide (parent p ∈ files f)) &&
   bool_decide (parent p ∈ dirs f)).

(** The filesystem after a [mkdir] that went through. *)
Definition with_dir (f : filesystem) (p : path) : filesystem :=
  if bool_decide (p ∈ dirs f) then f
  else {| dirs := {[p]} ∪ dirs f; files := files f |}.

(** The exception of a [mkdir] that did not. *)
Definition mkdir_error (f : filesystem) (p : path) : exn :=
  if bool_decide (p ∈ files f) then FileExistsError
  else if bool_decide (parent p ∈ files f) then NotADirectoryError
  else FileNotFoundError.

Section Report.

Context `{PyLib} (w : world).

(** The output directory [main] passes on: the second argument, or the
    default. *)
Definition output_dir_of : string := default "downloads" (args w !! 1%nat).

(** Lines 168 to 181 of [main] on their own: the download and its report. *)
Definition download_and_report (url : string) : M unit :=
  output_dir ← (if (3 <=? length (sys_argv w))%nat
                then argv_item w 2 else mret "downloads");
  success ← download_album w url output_dir;
  if success : bool then print (nl +:+ "🎉 Готово! Приятного прослушивания!")
  else
    print (nl +:+ "⚠️  Скачивание завершено с ошибками");;
    sys_exit 1.

End Report.

(** ** How a run ends, as the specification lists it *)






(** An exception other than [SystemExit] escapes. *)
Definition crashed {A} (r : result A) : bool :=
  match r with
  | Return _ | Raise (SystemExit _) => false
  | Raise _ => true
  end.

(** ** Sample environments *)

Definition quoted (s : string) : string :=
  String "034"%char (s +:+ String "034"%char EmptyString).

Fixpoint join (sep : string) (l : list string) : string :=
  match l with
  | [] => EmptyString
  | [x] => x
  | x :: l' => x +:+ sep +:+ join sep l'
  end.

(** A flat JSON object with string values, as text and as [json.loads]
    reads it. *)
Definition object_text (fields : list (string * string)) : string :=
  "{" +:+ join ", " ((λ kv, quoted kv.1 +:+ ": " +:+ quoted kv.2) <$> fields)
      +:+ "}".

Definition object_value (fields : list (string * string)) : json :=
  JDict (list_to_map (prod_map id JStr <$> fields)).

Definition untitled_track : list (string * string) :=
  [("title", "Intro"); ("id", "a1"); ("playlist_title", "")].

Definition titled_track : list (string * string) :=
  [("title", "Outro"); ("id", "b2"); ("playlist_title", "Mix")].

(** [json.loads] on the lines of the samples: the two objects parse, every
    other line of the samples is malformed. *)
Definition sample_loads (line : string) : option json :=
  object_value <$>
    (snd <$> list_find (λ fields, object_text fields = line)
               [untitled_track; titled_track]).

Definition sample_lib : PyLib := {|
  json_loads := sample_loads;
  py_str := λ v, match v with JStr s => s | _ => "?" end;
  exn_str := λ _, "error"
|}.

(** A well-formed line, a malformed one, an empty one, a well-formed one. *)
Definition sample_stdout : string :=
  object_text untitled_track +:+ nl +:+ "{" +:+ quoted "title" +:+ nl +:+ nl
    +:+ object_text titled_track +:+ nl.

Definition sample_url : string := "https://youtu.be/x?list=PL1".

(** An environment given by how each of the three commands ends, what the
    operator answers and the arguments. *)
Definition sample_world (version probe download : proc_result)
    (answer : input_result) (arguments : list string) : world := {|
  argv0 := "ytmad.py";
  args := arguments;
  run_process := λ cmd,
    match cmd with
    | [_; "--version"] => version
    | [_; "--dump-json"; _; _] => probe
    | _ => download
    end;
  read_input := λ _, answer
|}.

(** Only the current directory exists. *)
Definition cwd_only : filesystem := {| dirs := {[ [] ]}; files := ∅ |}.

(** ** What a pattern of the script takes from a string *)

(** The longest prefix of accepted characters, and what follows it. *)
Fixpoint taken (a : Re.atom) (s : string) : string :=
  match s with
  | String c s' => if Re.accepts a c then String c (taken a s') else EmptyString
  | EmptyString => EmptyString
  end.

Fixpoint skipped (a : Re.atom) (s : string) : string :=
  match s with
  | String c s' => if Re.accepts a c then skipped a s' else s
  | EmptyString => EmptyString
  end.

(** A literal followed by a group of one or more accepted characters: the
    shape of both patterns. *)
Definition literal_then_group (l : string) (a : Re.atom) : Re.regex :=
  Re.Seq (Re.literal l) (Re.Group (Re.Plus a)).

(** A place in [url] where [list=] is followed by a character other than
    the ampersand. *)
Definition has_list_id (url : string) : Prop :=
  ∃ pre c t, url = pre +:+ "list=" +:+ String c t ∧ c ≠ "&"%char.

(** A line that holds a JSON array, and [json.loads] on it. *)
Definition array_text : string :=
  "[" +:+ quoted "title" +:+ ", " +:+ quoted "id" +:+ "]".

Definition array_lib : PyLib := {|
  json_loads := λ line,
    if String.eqb line array_text
    then Some (JList [JStr "title"; JStr "id"])
    else None;
  py_str := λ v, match v with JStr s => s | _ => "?" end;
  exn_str := λ _, "error"
|}.

(** The URL [main] works on: its first argument. *)
Definition url_of (w : world) : string := default EmptyString (args w !! 0%nat).

(** * Properties *)

(** ** The parser of the probe's output *)

Section Parsing.

Context `{PyLib}.

Lemma append_video_dict d st :
  append_video (JDict d) st =
    Some {| videos :=
              videos st ++
                match d !! "title", d !! "id" with
                | Some t, Some i => [{| track_title := t; track_id := i |}]
                | _, _ => []
                end;
            playlist_title := playlist_title st |}.
Proof.
  unfold append_video; simpl.
  destruct (d !! "title") as [t|] eqn:Ht, (d !! "id") as [i|] eqn:Hi; simpl;
    rewrite ?Ht, ?Hi; simpl; rewrite ?app_nil_r; by destruct st.
Qed.

Lemma append_video_not_dict data st st' :
  append_video data st = Some st' →
  (∀ d, data ≠ JDict d) →
  st' = st.
Proof.
  unfold append_video. intros Hst Hnd.
  destruct data; simpl in Hst; try discriminate; try (by destruct (Hnd d)).
  - destruct (Str.str_in "title" s); simpl in Hst;
      [destruct (Str.str_in "id" s)|]; simpl in Hst; congruence.
  - destruct (existsb _ l); simpl in Hst; [destruct (existsb _ l)|];
      simpl in Hst; congruence.
Qed.

Lemma pick_title_not_dict data st st' :
  pick_title data st = Some st' →
  (∀ d, data ≠ JDict d) →
  st' = st.
Proof.
  unfold pick_title. intros Hst Hnd.
  destruct (truthy (playlist_title st)); simpl in Hst; [congruence|].
  destruct data; simpl in Hst; try discriminate; try (by destruct (Hnd d)).
  - destruct (Str.str_in _ s); simpl in Hst; congruence.
  - destruct (existsb _ l); simpl in Hst; congruence.
Qed.

Lemma pick_title_dict d st :
  pick_title (JDict d) st =
    Some {| videos := videos st;
            playlist_title :=
              if truthy (playlist_title st) then playlist_title st
              else default (playlist_title st) (d !! "playlist_title") |}.
Proof.
  unfold pick_title.
  destruct (truthy (playlist_title st)); simpl; [by destruct st|].
  destruct (d !! "playlist_title") as [v|] eqn:Hv; simpl; rewrite ?Hv; simpl;
    by destruct st.
Qed.

(** One turn of the loop, read off the line's record. *)
Lemma scan_line_spec st line :
  scan_line st line =
    {| videos := videos st ++ option_list (track_of_line line);
       playlist_title :=
         if truthy (playlist_title st) then playlist_title st
         else default (playlist_title st) (playlist_title_of_line line) |}.
Proof.
  assert (Hid : st = {| videos := videos st ++ [];
                        playlist_title :=
                          if truthy (playlist_title st) then playlist_title st
                          else playlist_title st |}).
  { rewrite app_nil_r. destruct st, (truthy _); done. }
  unfold scan_line, track_of_line, playlist_title_of_line, record_of_line.
  destruct (String.eqb line EmptyString); [exact Hid|].
  destruct (json_loads line) as [data|]; [|exact Hid].
  destruct data as [| b | n | bits | s | l | d];
    try (
         destruct (append_video _ st) as [st1|] eqn:H1; [|exact Hid];
         apply append_video_not_dict in H1 as ->; [|done];
         destruct (pick_title _ st) as [st2|] eqn:H2; [|exact Hid];
         apply pick_title_not_dict in H2 as ->; [|done]; exact Hid).
  rewrite append_video_dict, pick_title_dict. simpl.
  destruct (d !! "title"), (d !! "id"); done.
Qed.

Lemma foldl_scan_videos lines st :
  videos (foldl scan_line st lines) = videos st ++ omap track_of_line lines.
Proof.
  revert st. induction lines as [|line lines IH]; intros st; simpl.
  - by rewrite app_nil_r.
  - rewrite IH, scan_line_spec. simpl.
    destruct (track_of_line line); simpl; by rewrite <- ?app_assoc.
Qed.

Lemma foldl_scan_title lines st :
  title_or_unknown (playlist_title (foldl scan_line st lines)) =
    if truthy (playlist_title st) then playlist_title st
    else first_true_playlist_title lines.
Proof.
  revert st. induction lines as [|line lines IH]; intros st; simpl.
  - unfold title_or_unknown. by destruct (truthy _).
  - rewrite IH, scan_line_spec. simpl.
    destruct (truthy (playlist_title st)) eqn:Hst; [by rewrite Hst|].
    unfold first_true_playlist_title. simpl.
    destruct (playlist_title_of_line line) as [v|]; simpl; [|by rewrite Hst].
    rewrite filter_cons.
    destruct (truthy v) eqn:Hv; [by rewrite decide_True|].
    by rewrite decide_False by congruence.
Qed.

End Parsing.

(** ** The functions of the script, run *)

(** Unfold the monad and the calls into the environment, not the
    functions of the script. *)
Ltac run :=
  cbv beta iota zeta delta
    [try_except subprocess_run input argv_item print log raise sys_exit when_
     Path_mkdir os_mkdir is_dir mbind M_bind mret M_ret emit
     trace fs fst snd negb andb orb].

(** Bring a trace built by successive appends to one append. *)
Ltac tidy := rewrite <- ?app_assoc; cbn [app fmap list_fmap].

(** No command of a short explicit list has the length in question. *)
Ltac lengths :=
  let cmd := fresh "cmd" in
  let Hin := fresh "Hin" in
  intros cmd Hin;
  repeat (apply elem_of_cons in Hin as [->|Hin]; [discriminate|]);
  by apply elem_of_nil in Hin.

Section Runs.

Context `{PyLib} (w : world).

Lemma emit_emit a b s : emit b (emit a s) = emit (a ++ b) s.
Proof. unfold emit; simpl. by rewrite app_assoc. Qed.

Lemma check_dependencies_run s :
  check_dependencies w s =
    let s1 := emit [EvRun version_cmd (fs s)] s in
    match run_process w version_cmd with
    | Exited rc _ =>
        if rc =? 0 then (Return true, s1)
        else (Return false, emit (EvPrint <$> install_instructions) s1)
    | NoSuchFile => (Return false, emit (EvPrint <$> install_instructions) s1)
    | Interrupted => (Raise KeyboardInterrupt, s1)
    end.
Proof.
  unfold check_dependencies. run.
  destruct (run_process w version_cmd) as [rc out| |];
    [destruct (rc =? 0)|..]; run; tidy; reflexivity.
Qed.

Lemma get_playlist_info_run url s :
  get_playlist_info w url s =
    let s1 :=
      emit [EvPrint "📋 Получаю информацию о плейлисте...";
            EvRun (probe_cmd url) (fs s)] s in
    match run_process w (probe_cmd url) with
    | Exited rc out =>
        if rc =? 0 then (Return (Some (playlist_of_stdout out)), s1)
        else (Return None,
              emit [EvPrint ("❌ Ошибка при получении информации: " +:+
                             exn_str (CalledProcessError rc (probe_cmd url)))] s1)
    | NoSuchFile => (Raise FileNotFoundError, s1)
    | Interrupted => (Raise KeyboardInterrupt, s1)
    end.
Proof.
  unfold get_playlist_info. run.
  destruct (run_process w (probe_cmd url)) as [rc out| |];
    [destruct (rc =? 0)|..]; run; tidy; reflexivity.
Qed.

Lemma Path_mkdir_run p s :
  Path_mkdir p true s =
    if can_make (fs s) p
    then (Return tt, {| trace := trace s ++ [EvMkdir p];
                         fs := with_dir (fs s) p |})
    else (Raise (mkdir_error (fs s) p), emit [EvMkdir p] s).
Proof.
  destruct s as [tr f]. unfold can_make, with_dir, mkdir_error. run.
  repeat case_bool_decide; run; repeat case_bool_decide;
    first [reflexivity | tauto].
Qed.

Lemma download_album_run url dir s :
  download_album w url dir s =
    let p := path_parts dir in
    let cmd := download_cmd url dir in
    if can_make (fs s) p then
      let s1 :=
        {| trace := trace s ++
             [EvMkdir p;
              EvPrint (nl +:+ "🎵 Начинаю скачивание альбома...");
              EvPrint ("📁 Папка сохранения: " +:+ dir +:+ "/" +:+ nl);
              EvRun cmd (with_dir (fs s) p)];
           fs := with_dir (fs s) p |} in
      match run_process w cmd with
      | Exited rc out =>
          if rc =? 0 then
            (Return true,
             emit [EvPrint (nl +:+ "✅ Скачивание завершено!");
                   EvPrint ("📂 Файлы сохранены в папке: " +:+ dir +:+ "/")] s1)
          else
            (Return false,
             emit [EvPrint (nl +:+ "❌ Ошибка при скачивании: " +:+
                            exn_str (CalledProcessError rc cmd))] s1)
      | NoSuchFile => (Raise FileNotFoundError, s1)
      | Interrupted =>
          (Return false,
           emit [EvPrint (nl +:+ nl +:+
                          "⚠️  Скачивание прервано пользователем")] s1)
      end
    else (Raise (mkdir_error (fs s) p), emit [EvMkdir p] s).
Proof.
  destruct s as [tr f]. unfold download_album.
  cbv beta iota zeta delta [mbind M_bind]. rewrite Path_mkdir_run.
  run. destruct (can_make f (path_parts dir)); [|reflexivity]. run.
  destruct (run_process w (download_cmd url dir)) as [rc out| |];
    [destruct (rc =? 0)|..]; run; tidy; reflexivity.
Qed.

Lemma download_and_report_run url s :
  download_and_report w url s =
    match download_album w url (output_dir_of w) s with
    | (Return true, s') =>
        (Return tt,
         emit [EvPrint (nl +:+ "🎉 Готово! Приятного прослушивания!")] s')
    | (Return false, s') =>
        (Raise (SystemExit 1),
         emit [EvPrint (nl +:+ "⚠️  Скачивание завершено с ошибками")] s')
    | (Raise e, s') => (Raise e, s')
    end.
Proof.
  unfold download_and_report, output_dir_of, argv_item, sys_argv.
  destruct (args w) as [|a [|d rest]]; simpl; run;
    (destruct (download_album _ _ _ _) as [[[]|e] s']; reflexivity).
Qed.

Lemma main_run f0 :
  main w (start f0) =
    match check_dependencies w (emit (EvPrint <$> banner) (start f0)) with
    | (Raise e, s1) => (Raise e, s1)
    | (Return false, s1) => (Raise (SystemExit 1), s1)
    | (Return true, s1) =>
        match args w with
        | [] =>
            (Raise (SystemExit 1),
             emit [EvPrint (nl +:+ "❌ Не указана ссылка на плейлист!");
                   EvPrint (nl +:+ "Использование:");
                   EvPrint ("  python " +:+ argv0 w +:+ " <URL_плейлиста>");
                   EvPrint (nl +:+ "Пример:");
                   EvPrint ("  python " +:+ argv0 w +:+
                            " 'https://www.youtube.com/playlist?list=...'")]
               s1)
        | url :: _ =>
            if youtube_url url then
              match get_playlist_info w url s1 with
              | (Raise e, s2) => (Raise e, s2)
              | (Return None, s2) => download_and_report w url s2
              | (Return (Some info), s2) =>
                  let s3 :=
                    emit [EvPrint (nl +:+ "📋 Плейлист: " +:+ py_str (info_title info));
                          EvPrint ("🎵 Количество треков: " +:+ pretty (info_count info));
                          EvInput (confirm_prompt info)] s2 in
                  match read_input w (confirm_prompt info) with
                  | EndOfFile => (Raise EOFError, s3)
                  | Break => (Raise KeyboardInterrupt, s3)
                  | Line r =>
                      if String.eqb (Str.lower r) "y"
                      then download_and_report w url s3
                      else (Raise (SystemExit 0),
                            emit [EvPrint cancel_message] s3)
                  end
              end
            else
              (Raise (SystemExit 1),
               emit [EvPrint "❌ Неверная ссылка! Укажите ссылку на YouTube плейлист."]
                 s1)
        end
    end.
Proof.
  unfold main, download_and_report, banner, start, argv_item. run.
  cbn [app fmap list_fmap].
  destruct (check_dependencies w _) as [[[]|e] s1]; try reflexivity.
  unfold sys_argv, youtube_url.
  destruct (args w) as [|url rest]; simpl; run; tidy; [reflexivity|].
  destruct (Str.str_in "youtube.com" url), (Str.str_in "youtu.be" url); run;
    try reflexivity.
  all: destruct (get_playlist_info w url s1) as [[[info|]|e] s2]; try reflexivity.
  all: destruct (read_input w _) as [r| |]; run; tidy; try reflexivity.
  all: destruct (String.eqb (Str.lower r) "y"); run; tidy; reflexivity.
Qed.

End Runs.

(** ** Observations, computed *)




Lemma lower_ascii_y c :
  Str.lower_ascii c = "y"%char → c = "y"%char ∨ c = "Y"%char.
Proof.
  destruct c as [[] [] [] [] [] [] [] []]; vm_compute; intros E;
    first [discriminate E | by left | by right].
Qed.

(** A case-insensitive [y] is [y] or [Y]. *)
Lemma lower_y r : Str.lower r = "y" ↔ r = "y" ∨ r = "Y".
Proof.
  split.
  - destruct r as [|c [|c' r']]; simpl; intros E; try discriminate E.
    injection E as E. destruct (lower_ascii_y c E) as [-> | ->]; auto.
  - intros [-> | ->]; reflexivity.
Qed.

(** ** The claims about [get_playlist_info] *)

Section Inspector.

Context `{PyLib} (w : world).

(** C1. Whatever the metadata probe wrote (well-formed, malformed and empty
    lines in any mix), [get_playlist_info] returns a PlaylistInfo and raises
    nothing, and its tracks are the TrackRecords of the lines that parse to
    a record with both a title and an id field, one per such line, in the
    order of the lines; the other lines contribute nothing. *)
Theorem get_playlist_info_tracks url s out :
  run_process w (probe_cmd url) = Exited 0 out →
  ∃ info s',
    get_playlist_info w url s = (Return (Some info), s') ∧
    info_videos info = omap track_of_line (stdout_lines out).
Proof.
  intros Hrun. rewrite get_playlist_info_run, Hrun. simpl.
  eexists _, _. split; [reflexivity|].
  unfold playlist_of_stdout. simpl. by rewrite foldl_scan_videos.
Qed.

(** C2, amended. The title [get_playlist_info] returns is the value of the
    playlist-title field of the first parsed record, in line order, whose
    playlist-title field holds a value Python takes for true (not null,
    false, zero or empty); when no parsed record has such a field, it is
    the sentinel. *)
Theorem get_playlist_info_title url s out :
  run_process w (probe_cmd url) = Exited 0 out →
  ∃ info s',
    get_playlist_info w url s = (Return (Some info), s') ∧
    info_title info = first_true_playlist_title (stdout_lines out).
Proof.
  intros Hrun. rewrite get_playlist_info_run, Hrun. simpl.
  eexists _, _. split; [reflexivity|].
  unfold playlist_of_stdout. simpl. by rewrite foldl_scan_title.
Qed.

(** C10. A PlaylistInfo that [get_playlist_info] returns counts its own
    tracks. *)
Theorem get_playlist_info_count url s info s' :
  get_playlist_info w url s = (Return (Some info), s') →
  info_count info = Z.of_nat (length (info_videos info)).
Proof.
  rewrite get_playlist_info_run. simpl.
  destruct (run_process w (probe_cmd url)) as [rc out| |];
    [destruct (rc =? 0)|..]; intros E; try discriminate E.
  injection E as <- _. reflexivity.
Qed.

(** X1. When no line of the probe's output carries a playlist-title
    field, the title returned is the sentinel. *)
Theorem get_playlist_info_no_title url s out :
  run_process w (probe_cmd url) = Exited 0 out →
  omap playlist_title_of_line (stdout_lines out) = [] →
  ∃ info s',
    get_playlist_info w url s = (Return (Some info), s') ∧
    info_title info = JStr "Unknown Playlist".
Proof.
  intros Hrun Hnone. rewrite get_playlist_info_run, Hrun. simpl.
  eexists _, _. split; [reflexivity|].
  unfold playlist_of_stdout. simpl. rewrite foldl_scan_title. simpl.
  unfold first_true_playlist_title. by rewrite Hnone.
Qed.

(** X2. The count returned is the number of lines that parse to a record
    with both a title and an id field. *)
Theorem get_playlist_info_counts_lines url s out :
  run_process w (probe_cmd url) = Exited 0 out →
  ∃ info s',
    get_playlist_info w url s = (Return (Some info), s') ∧
    info_count info =
      Z.of_nat (length (omap track_of_line (stdout_lines out))).
Proof.
  intros Hrun. rewrite get_playlist_info_run, Hrun. simpl.
  eexists _, _. split; [reflexivity|].
  unfold playlist_of_stdout. simpl. by rewrite foldl_scan_videos.
Qed.

End Inspector.

(** C1 on the sample output: two records out of four lines. *)
Lemma get_playlist_info_tracks_sample :
  ∃ info s',
    @get_playlist_info sample_lib
      (sample_world (Exited 0 "2024.08.06") (Exited 0 sample_stdout)
         (Exited 0 "") (Line "n") [sample_url])
      sample_url (start cwd_only) = (Return (Some info), s') ∧
    info_videos info =
      omap (@track_of_line sample_lib) (stdout_lines sample_stdout).
Proof.
  apply (@get_playlist_info_tracks sample_lib). reflexivity.
Defined.

(** C2 as stated fails on the sample output: the first record carries an
    empty playlist title, the title returned is that of the last line. *)
Lemma get_playlist_info_title_not_first :
  ∃ info s',
    @get_playlist_info sample_lib
      (sample_world (Exited 0 "2024.08.06") (Exited 0 sample_stdout)
         (Exited 0 "") (Line "n") [sample_url])
      sample_url (start cwd_only) = (Return (Some info), s') ∧
    info_title info = JStr "Mix" ∧
    @first_playlist_title sample_lib (stdout_lines sample_stdout) = JStr "".
Proof.
  eexists _, _. split; [reflexivity|]. split; reflexivity.
Qed.

Lemma get_playlist_info_title_sample :
  ∃ info s',
    @get_playlist_info sample_lib
      (sample_world (Exited 0 "2024.08.06") (Exited 0 sample_stdout)
         (Exited 0 "") (Line "n") [sample_url])
      sample_url (start cwd_only) = (Return (Some info), s') ∧
    info_title info =
      @first_true_playlist_title sample_lib (stdout_lines sample_stdout).
Proof.
  apply (@get_playlist_info_title sample_lib). reflexivity.
Defined.

Lemma get_playlist_info_count_sample :
  info_count (@playlist_of_stdout sample_lib sample_stdout) =
    Z.of_nat (length (info_videos (@playlist_of_stdout sample_lib sample_stdout))).
Proof.
  apply (@get_playlist_info_count sample_lib
           (sample_world (Exited 0 "2024.08.06") (Exited 0 sample_stdout)
              (Exited 0 "") (Line "n") [sample_url])
           sample_url (start cwd_only) _
           (emit [EvPrint "📋 Получаю информацию о плейлисте...";
                  EvRun (probe_cmd sample_url) cwd_only] (start cwd_only))).
  reflexivity.
Defined.

(** ** The claims about [download_album] *)

Section Orchestrator.

Context `{PyLib} (w : world).

Lemma commands_app a b : commands (a ++ b) = commands a ++ commands b.
Proof. apply omap_app. Qed.

Lemma can_make_spec f p :
  can_make f p = true ↔
  p ∈ dirs f ∨ ((p ∉ files f) ∧ (parent p ∉ files f) ∧ parent p ∈ dirs f).
Proof.
  unfold can_make.
  rewrite orb_true_iff, !andb_true_iff, !negb_true_iff,
    !bool_decide_eq_true, !bool_decide_eq_false. tauto.
Qed.

Lemma with_dir_has f p : p ∈ dirs (with_dir f p).
Proof.
  unfold with_dir. case_bool_decide; [done|]. simpl. set_solver.
Qed.

(** C3, amended. [download_album] makes the output directory with one
    [mkdir] before anything else: whenever the downloader is invoked the
    directory exists by then, a directory that exists already is no error,
    and a missing directory whose parent exists is created.  Missing
    parents are not created: then [mkdir] raises, nothing is created and
    the downloader is not invoked. *)
Theorem download_album_directory url dir s :
  let p := path_parts dir in
  let r := download_album w url dir s in
  ∃ evs,
    trace r.2 = trace s ++ EvMkdir p :: evs ∧
    (∀ cmd seen, EvRun cmd seen ∈ evs →
       cmd = download_cmd url dir ∧ p ∈ dirs seen) ∧
    (p ∈ dirs (fs s) →
       commands evs = [download_cmd url dir] ∧ fs r.2 = fs s) ∧
    (p ∉ dirs (fs s) → p ∉ files (fs s) →
     parent p ∉ files (fs s) → parent p ∈ dirs (fs s) →
       commands evs = [download_cmd url dir] ∧
       dirs (fs r.2) = {[p]} ∪ dirs (fs s) ∧ files (fs r.2) = files (fs s)) ∧
    (p ∉ dirs (fs s) → parent p ∉ dirs (fs s) →
       ∃ e, r.1 = Raise e ∧ e ∈ [FileExistsError; NotADirectoryError;
                                 FileNotFoundError] ∧
            evs = [] ∧ fs r.2 = fs s).
Proof.
  intros p r. subst r. rewrite download_album_run. fold p.
  cbv zeta.
  destruct (can_make (fs s) p) eqn:Hcan.
  - apply can_make_spec in Hcan.
    set (cmd := download_cmd url dir).
    assert (Hfs : ∀ (x : result bool * state) tl,
      fs x.2 = with_dir (fs s) p →
      trace x.2 = trace s ++ EvMkdir p ::
        [EvPrint (nl +:+ "🎵 Начинаю скачивание альбома...");
         EvPrint ("📁 Папка сохранения: " +:+ dir +:+ "/" +:+ nl);
         EvRun cmd (with_dir (fs s) p)] ++ tl →
      commands tl = [] →
      (∀ c f', EvRun c f' ∉ tl) →
      ∃ evs, trace x.2 = trace s ++ EvMkdir p :: evs ∧
        (∀ c seen, EvRun c seen ∈ evs → c = cmd ∧ p ∈ dirs seen) ∧
        (p ∈ dirs (fs s) → commands evs = [cmd] ∧ fs x.2 = fs s) ∧
        (p ∉ dirs (fs s) → p ∉ files (fs s) →
         parent p ∉ files (fs s) → parent p ∈ dirs (fs s) →
           commands evs = [cmd] ∧
           dirs (fs x.2) = {[p]} ∪ dirs (fs s) ∧ files (fs x.2) = files (fs s)) ∧
        (p ∉ dirs (fs s) → parent p ∉ dirs (fs s) →
           ∃ e, x.1 = Raise e ∧ e ∈ [FileExistsError; NotADirectoryError;
                                     FileNotFoundError] ∧
                evs = [] ∧ fs x.2 = fs s)).
    { intros x tl Hx Htr Hcmds Hnorun. eexists. split; [exact Htr|].
      assert (Hc : commands
        ([EvPrint (nl +:+ "🎵 Начинаю скачивание альбома...");
          EvPrint ("📁 Папка сохранения: " +:+ dir +:+ "/" +:+ nl);
          EvRun cmd (with_dir (fs s) p)] ++ tl) = [cmd]).
      { rewrite commands_app, Hcmds. reflexivity. }
      split; [|split; [|split]].
      - intros c seen Hin. apply elem_of_app in Hin as [Hin|Hin].
        + repeat (apply elem_of_cons in Hin as [Hin|Hin]; [try discriminate Hin|]).
          * injection Hin as -> ->. split; [done|apply with_dir_has].
          * by apply elem_of_nil in Hin.
        + by destruct (Hnorun c seen).
      - intros Hd. split; [exact Hc|]. rewrite Hx. unfold with_dir.
        by rewrite bool_decide_true.
      - intros Hd _ _ _. split; [exact Hc|]. rewrite Hx. unfold with_dir.
        by rewrite bool_decide_false.
      - intros Hd Hp. exfalso. tauto. }
    destruct (run_process w cmd) as [rc out| |]; [destruct (rc =? 0)|..].
    all: eapply Hfs; [reflexivity| unfold emit; simpl; rewrite <- ?app_assoc; reflexivity
                      | reflexivity |].
    all: intros c f' Hin;
      repeat (apply elem_of_cons in Hin as [Hin|Hin]; [discriminate Hin|]);
      by apply elem_of_nil in Hin.
  - assert (Hno : ¬ (p ∈ dirs (fs s) ∨
        ((p ∉ files (fs s)) ∧ (parent p ∉ files (fs s)) ∧
         parent p ∈ dirs (fs s)))).
    { rewrite <- can_make_spec, Hcan. discriminate. }
    exists []. simpl. split; [reflexivity|].
    split; [intros c seen Hin; by apply elem_of_nil in Hin|].
    split; [tauto|]. split; [tauto|].
    intros _ _. eexists. split; [reflexivity|]. split; [|done].
    unfold mkdir_error. repeat case_bool_decide; set_solver.
Qed.


End Orchestrator.

(** C3 as stated fails when the parent of the output directory is missing:
    [mkdir] raises, the directory is not there afterwards and the
    downloader was never run. *)
Lemma download_album_missing_parent :
  let r := @download_album sample_lib
             (sample_world (Exited 0 "2024.08.06") (Exited 1 "")
                (Exited 0 "") (Line "y") [sample_url; "music/album"])
             sample_url "music/album" (start cwd_only) in
  r.1 = Raise FileNotFoundError ∧
  commands (trace r.2) = [] ∧
  bool_decide (path_parts "music/album" ∈ dirs (fs r.2)) = false ∧
  bool_decide (parent (path_parts "music/album") ∈ dirs cwd_only) = false.
Proof. vm_compute. auto. Qed.

(** ** The claims about [main] *)

Section EntryPoint.

Context `{PyLib} (w : world).

#[local] Arguments Str.repeat : simpl never.

Lemma not_downloader_invoked tr :
  (∀ cmd, cmd ∈ commands tr → length cmd ≠ 15%nat) → ¬ downloader_invoked tr.
Proof.
  intros Hlen (url & dir & Hin). by apply Hlen in Hin.
Qed.

Lemma not_probe_invoked tr :
  (∀ cmd, cmd ∈ commands tr → length cmd ≠ 4%nat) → ¬ probe_invoked tr.
Proof.
  intros Hlen (url & Hin). by apply Hlen in Hin.
Qed.

(** C9. When the binary is absent from the path or exits with a non-zero
    status on the version query, [main] prints the install instructions and
    exits with status 1; the version query is the only thing it did besides
    printing, whatever its arguments are. *)
Theorem main_dependency_unavailable f0 :
  dependency_unavailable w →
  ∃ s',
    main w (start f0) = (Raise (SystemExit 1), s') ∧
    trace s' =
      (EvPrint <$> banner) ++ EvRun version_cmd f0 ::
      (EvPrint <$> install_instructions) ∧
    fs s' = f0.
Proof.
  intros Hdep. rewrite main_run, check_dependencies_run. simpl.
  destruct Hdep as [->|(rc & out & Hrc & ->)].
  - eexists. split; [reflexivity|]. split; reflexivity.
  - apply Z.eqb_neq in Hrc. rewrite Hrc.
    eexists. split; [reflexivity|]. split; reflexivity.
Qed.

(** C5. For a URL that contains neither [youtube.com] nor [youtu.be],
    [main] exits with status 1, and the version query of the dependency
    check is the only command it ran: neither the metadata probe nor the
    downloader is invoked.  (The dependency check comes first; an operator
    who interrupts it ends the program before the URL is looked at.) *)
Theorem main_invalid_url f0 url rest :
  args w = url :: rest →
  Str.str_in "youtube.com" url = false →
  Str.str_in "youtu.be" url = false →
  run_process w version_cmd ≠ Interrupted →
  ∃ s',
    main w (start f0) = (Raise (SystemExit 1), s') ∧
    exit_status (main w (start f0)).1 = 1 ∧
    commands (trace s') = [version_cmd] ∧
    ¬ probe_invoked (trace s') ∧
    ¬ downloader_invoked (trace s').
Proof.
  intros Hargs H1 H2 Hint.
  rewrite main_run, check_dependencies_run, Hargs. unfold youtube_url.
  rewrite H1, H2. simpl.
  destruct (run_process w version_cmd) as [rc out| |];
    [destruct (rc =? 0)|..]; try done.
  all: eexists; split; [reflexivity|]; split; [reflexivity|].
  all: split; [reflexivity|].
  all: split; [apply not_probe_invoked|apply not_downloader_invoked]; lengths.
Qed.

(** C4. When inspection succeeded and the operator answers the prompt with
    anything other than a case-insensitive [y], [main] prints the
    cancellation message last and exits with status 0; the version query
    and the metadata probe are the only commands it ran, so the downloader
    is never invoked. *)
Theorem main_cancelled f0 url rest vout out r :
  run_process w version_cmd = Exited 0 vout →
  args w = url :: rest →
  youtube_url url = true →
  run_process w (probe_cmd url) = Exited 0 out →
  read_input w (confirm_prompt (playlist_of_stdout out)) = Line r →
  Str.lower r ≠ "y" →
  ∃ s',
    main w (start f0) = (Raise (SystemExit 0), s') ∧
    exit_status (main w (start f0)).1 = 0 ∧
    last (trace s') = Some (EvPrint cancel_message) ∧
    commands (trace s') = [version_cmd; probe_cmd url] ∧
    ¬ downloader_invoked (trace s').
Proof.
  intros Hv Hargs Hurl Hp Hin Hr.
  rewrite main_run, check_dependencies_run, Hv, Hargs, Hurl. simpl.
  rewrite get_playlist_info_run, Hp. simpl. rewrite Hin.
  destruct (String.eqb_spec (Str.lower r) "y") as [E|_]; [done|].
  eexists. split; [reflexivity|]. split; [reflexivity|].
  split; [reflexivity|]. split; [reflexivity|].
  apply not_downloader_invoked. lengths.
Qed.

(** C6. When the metadata probe exits with a non-zero status,
    [get_playlist_info] raises nothing and returns Python's [None], and
    [main] goes on from there with the download and its report: it shows
    no prompt, and the next thing it does is the [mkdir] of
    [download_album]; when that goes through, the downloader is the next
    command run. *)
Theorem main_probe_failed f0 url rest vout rc out :
  run_process w version_cmd = Exited 0 vout →
  args w = url :: rest →
  youtube_url url = true →
  run_process w (probe_cmd url) = Exited rc out →
  rc ≠ 0 →
  let s1 := emit ((EvPrint <$> banner) ++ [EvRun version_cmd f0]) (start f0) in
  ∃ s2,
    get_playlist_info w url s1 = (Return None, s2) ∧
    main w (start f0) = download_and_report w url s2 ∧
    prompts (trace (main w (start f0)).2) = [] ∧
    commands (trace s2) = [version_cmd; probe_cmd url] ∧
    (∃ evs, trace (main w (start f0)).2 =
              trace s2 ++ EvMkdir (path_parts (output_dir_of w)) :: evs) ∧
    (can_make f0 (path_parts (output_dir_of w)) = true →
       commands (trace (main w (start f0)).2) =
         [version_cmd; probe_cmd url; download_cmd url (output_dir_of w)]).
Proof.
  intros Hv Hargs Hurl Hp Hrc s1. apply Z.eqb_neq in Hrc.
  rewrite main_run, check_dependencies_run, Hv, Hargs, Hurl. simpl.
  subst s1. rewrite ?emit_emit. simpl.
  rewrite get_playlist_info_run, Hp, Hrc. simpl.
  eexists. split; [reflexivity|]. split; [reflexivity|].
  rewrite download_and_report_run, download_album_run. simpl.
  destruct (can_make f0 _).
  - destruct (run_process w (download_cmd _ _)) as [rc' out'| |];
      [destruct (rc' =? 0)|..]; simpl.
    all: split; [reflexivity|]; split; [reflexivity|].
    all: split; [eexists; rewrite <- ?app_assoc; reflexivity|].
    all: reflexivity.
  - simpl. split; [reflexivity|]. split; [reflexivity|].
    split; [by eexists|]. discriminate.
Qed.

(** X3. Without a URL argument, and with the dependency there, [main]
    prints the usage text and exits with status 1; the version query is
    the only command it ran. *)
Theorem main_missing_url f0 vout :
  run_process w version_cmd = Exited 0 vout →
  args w = [] →
  ∃ s',
    main w (start f0) = (Raise (SystemExit 1), s') ∧
    commands (trace s') = [version_cmd] ∧
    last (trace s') =
      Some (EvPrint ("  python " +:+ argv0 w +:+
                     " 'https://www.youtube.com/playlist?list=...'")).
Proof.
  intros Hv Hargs. rewrite main_run, check_dependencies_run, Hv, Hargs. simpl.
  eexists. split; [reflexivity|]. split; reflexivity.
Qed.

(** X4. When inspection succeeded and the operator answers [y] or [Y],
    [main] goes on with the download and its report, having shown one
    prompt and run the version query and the metadata probe. *)
Theorem main_confirmed f0 url rest vout out r :
  run_process w version_cmd = Exited 0 vout →
  args w = url :: rest →
  youtube_url url = true →
  run_process w (probe_cmd url) = Exited 0 out →
  read_input w (confirm_prompt (playlist_of_stdout out)) = Line r →
  r = "y" ∨ r = "Y" →
  ∃ s3,
    main w (start f0) = download_and_report w url s3 ∧
    prompts (trace s3) = [confirm_prompt (playlist_of_stdout out)] ∧
    commands (trace s3) = [version_cmd; probe_cmd url] ∧
    fs s3 = f0.
Proof.
  intros Hv Hargs Hurl Hp Hin Hr. apply lower_y in Hr.
  rewrite main_run, check_dependencies_run, Hv, Hargs, Hurl. simpl.
  rewrite get_playlist_info_run, Hp. simpl. rewrite Hin, Hr. simpl.
  eexists. split; [reflexivity|]. split; [reflexivity|]. split; reflexivity.
Qed.

End EntryPoint.

Section ExitStatus.

Context `{PyLib} (w : world).

#[local] Arguments Str.repeat : simpl never.

Lemma prompts_app a b : prompts (a ++ b) = prompts a ++ prompts b.
Proof. apply omap_app. Qed.



End ExitStatus.

(** ** The claims on sample runs *)

(** C9 on a machine without the binary. *)
Lemma main_dependency_unavailable_sample :
  ∃ s',
    @main sample_lib
      (sample_world NoSuchFile (Exited 0 sample_stdout) (Exited 0 "")
         (Line "y") [sample_url])
      (start cwd_only) = (Raise (SystemExit 1), s') ∧
    trace s' =
      (EvPrint <$> banner) ++ EvRun version_cmd cwd_only ::
      (EvPrint <$> install_instructions) ∧
    fs s' = cwd_only.
Proof.
  apply (@main_dependency_unavailable sample_lib). left. reflexivity.
Defined.

(** C5 on a URL of another site. *)
Lemma main_invalid_url_sample :
  ∃ s',
    @main sample_lib
      (sample_world (Exited 0 "2024.08.06") (Exited 0 sample_stdout)
         (Exited 0 "") (Line "y") ["https://example.com/playlist?list=PL1"])
      (start cwd_only) = (Raise (SystemExit 1), s') ∧
    exit_status
      (@main sample_lib
         (sample_world (Exited 0 "2024.08.06") (Exited 0 sample_stdout)
            (Exited 0 "") (Line "y") ["https://example.com/playlist?list=PL1"])
         (start cwd_only)).1 = 1 ∧
    commands (trace s') = [version_cmd] ∧
    ¬ probe_invoked (trace s') ∧
    ¬ downloader_invoked (trace s').
Proof.
  apply (@main_invalid_url sample_lib _ cwd_only
           "https://example.com/playlist?list=PL1" []).
  - reflexivity.
  - reflexivity.
  - reflexivity.
  - simpl. discriminate.
Defined.

(** C4 on the answer [n]. *)
Lemma main_cancelled_sample :
  ∃ s',
    @main sample_lib
      (sample_world (Exited 0 "2024.08.06") (Exited 0 sample_stdout)
         (Exited 0 "") (Line "n") [sample_url])
      (start cwd_only) = (Raise (SystemExit 0), s') ∧
    exit_status
      (@main sample_lib
         (sample_world (Exited 0 "2024.08.06") (Exited 0 sample_stdout)
            (Exited 0 "") (Line "n") [sample_url])
         (start cwd_only)).1 = 0 ∧
    last (trace s') = Some (EvPrint cancel_message) ∧
    commands (trace s') = [version_cmd; probe_cmd sample_url] ∧
    ¬ downloader_invoked (trace s').
Proof.
  apply (@main_cancelled sample_lib _ cwd_only sample_url []
           "2024.08.06" sample_stdout "n").
  - reflexivity.
  - reflexivity.
  - reflexivity.
  - reflexivity.
  - reflexivity.
  - simpl. discriminate.
Defined.

(** C6 on a probe that exits with status 1: the download follows, into the
    default directory. *)
Lemma main_probe_failed_sample :
  commands
    (trace
       (@main sample_lib
          (sample_world (Exited 0 "2024.08.06") (Exited 1 "") (Exited 0 "")
             (Line "n") [sample_url])
          (start cwd_only)).2) =
    [version_cmd; probe_cmd sample_url; download_cmd sample_url "downloads"] ∧
  prompts
    (trace
       (@main sample_lib
          (sample_world (Exited 0 "2024.08.06") (Exited 1 "") (Exited 0 "")
             (Line "n") [sample_url])
          (start cwd_only)).2) = [].
Proof.
  destruct (@main_probe_failed sample_lib
              (sample_world (Exited 0 "2024.08.06") (Exited 1 "") (Exited 0 "")
                 (Line "n") [sample_url])
              cwd_only sample_url [] "2024.08.06" 1 "")
    as (s2 & _ & _ & Hprompts & _ & _ & Hcmds).
  - reflexivity.
  - reflexivity.
  - reflexivity.
  - reflexivity.
  - lia.
  - split; [apply Hcmds; reflexivity|exact Hprompts].
Defined.



(** X1 on an output of one malformed line. *)
Lemma get_playlist_info_no_title_sample :
  ∃ info s',
    @get_playlist_info sample_lib
      (sample_world (Exited 0 "2024.08.06") (Exited 0 "{") (Exited 0 "")
         (Line "n") [sample_url])
      sample_url (start cwd_only) = (Return (Some info), s') ∧
    info_title info = JStr "Unknown Playlist".
Proof.
  apply (@get_playlist_info_no_title sample_lib _ sample_url
           (start cwd_only) "{"); reflexivity.
Defined.

(** X2 on the sample output. *)
Lemma get_playlist_info_counts_lines_sample :
  ∃ info s',
    @get_playlist_info sample_lib
      (sample_world (Exited 0 "2024.08.06") (Exited 0 sample_stdout)
         (Exited 0 "") (Line "n") [sample_url])
      sample_url (start cwd_only) = (Return (Some info), s') ∧
    info_count info =
      Z.of_nat (length (omap (@track_of_line sample_lib)
                          (stdout_lines sample_stdout))).
Proof.
  apply (@get_playlist_info_counts_lines sample_lib). reflexivity.
Defined.

(** X3 on a run without arguments. *)
Lemma main_missing_url_sample :
  ∃ s',
    @main sample_lib
      (sample_world (Exited 0 "2024.08.06") (Exited 0 sample_stdout)
         (Exited 0 "") (Line "y") [])
      (start cwd_only) = (Raise (SystemExit 1), s') ∧
    commands (trace s') = [version_cmd] ∧
    last (trace s') =
      Some (EvPrint ("  python " +:+ "ytmad.py" +:+
                     " 'https://www.youtube.com/playlist?list=...'")).
Proof.
  apply (@main_missing_url sample_lib
           (sample_world (Exited 0 "2024.08.06") (Exited 0 sample_stdout)
              (Exited 0 "") (Line "y") [])
           cwd_only "2024.08.06"); reflexivity.
Defined.

(** X4 on the answer [Y]. *)
Lemma main_confirmed_sample :
  ∃ s3,
    @main sample_lib
      (sample_world (Exited 0 "2024.08.06") (Exited 0 sample_stdout)
         (Exited 0 "") (Line "Y") [sample_url])
      (start cwd_only) =
    @download_and_report sample_lib
      (sample_world (Exited 0 "2024.08.06") (Exited 0 sample_stdout)
         (Exited 0 "") (Line "Y") [sample_url])
      sample_url s3 ∧
    prompts (trace s3) =
      [confirm_prompt (@playlist_of_stdout sample_lib sample_stdout)] ∧
    commands (trace s3) = [version_cmd; probe_cmd sample_url] ∧
    fs s3 = cwd_only.
Proof.
  apply (@main_confirmed sample_lib
           (sample_world (Exited 0 "2024.08.06") (Exited 0 sample_stdout)
              (Exited 0 "") (Line "Y") [sample_url])
           cwd_only sample_url [] "2024.08.06" sample_stdout "Y").
  - reflexivity.
  - reflexivity.
  - reflexivity.
  - reflexivity.
  - reflexivity.
  - right. reflexivity.
Defined.

(** ** The patterns of [extract_playlist_id] *)

Section Patterns.

#[local] Arguments String.append : simpl nomatch.

Lemma append_cons c s t : String c s +:+ t = String c (s +:+ t).
Proof. reflexivity. Qed.

Lemma append_nil_l t : EmptyString +:+ t = t.
Proof. reflexivity. Qed.

Lemma append_assoc (a b c : string) : (a +:+ b) +:+ c = a +:+ b +:+ c.
Proof. induction a as [|x a IH]; simpl; [done|]. by rewrite IH. Qed.

Lemma taken_skipped a s : taken a s +:+ skipped a s = s.
Proof.
  induction s as [|c s IH]; simpl; [done|].
  destruct (Re.accepts a c); simpl; [by rewrite IH|done].
Qed.

Lemma consumed_append (x y : string) : Re.consumed (x +:+ y) y = x.
Proof.
  unfold Re.consumed.
  assert (Hlen : ∀ x y : string,
            String.length (x +:+ y) = (String.length x + String.length y)%nat).
  { clear. intros x y. induction x as [|c x IH]; simpl; [done|]. by rewrite IH. }
  rewrite Hlen. replace (String.length x + String.length y - String.length y)%nat
    with (String.length x) by lia.
  clear Hlen. induction x as [|c x IH]; simpl.
  - by destruct y.
  - by rewrite IH.
Qed.

(** The greedy star never backtracks when what follows always matches. *)
Lemma star_total {R} a s (k : string → option R) :
  (∀ x, is_Some (k x)) → Re.star a s k = k (skipped a s).
Proof.
  intros Hk. induction s as [|c s IH]; simpl; [done|].
  destruct (Re.accepts a c); [|done].
  rewrite IH. by destruct (Hk (skipped a s)) as [x ->].
Qed.

Lemma run_literal {R} l s g (k : string → option string → option R) x :
  Re.run (Re.literal l) s g k = Some x ↔ ∃ s', s = l +:+ s' ∧ k s' g = Some x.
Proof.
  revert s. induction l as [|c l IH]; intros s; simpl.
  - split; [eauto|]. by intros (s' & -> & Hk).
  - destruct s as [|c' s]; simpl.
    + split; [done|]. by intros (s' & E & _).
    + destruct (Ascii.eqb_spec c c') as [<-|Hne].
      * rewrite IH. split; intros (s' & E & Hk); exists s'.
        -- by rewrite E.
        -- by injection E as ->.
      * split; [done|]. intros (s' & E & _). by injection E as -> _.
Qed.

(** Where a pattern of the script matches at the start of a string, and
    what its group holds then. *)
Lemma run_literal_then_group l a s g :
  Re.run (literal_then_group l a) s None (λ _ g, Some g) = Some g ↔
  ∃ c t, s = l +:+ String c t ∧ Re.accepts a c = true ∧
         g = Some (String c (taken a t)).
Proof.
  unfold literal_then_group. simpl. rewrite run_literal. split.
  - intros (s' & -> & Hrun). destruct s' as [|c t]; [done|]. simpl in Hrun.
    destruct (Re.accepts a c) eqn:Hc; [|done].
    rewrite star_total in Hrun by eauto. injection Hrun as <-.
    exists c, t. split; [done|]. split; [done|].
    rewrite <- (taken_skipped a t) at 1.
    by rewrite <- append_cons, consumed_append.
  - intros (c & t & -> & Hc & ->). exists (String c t). split; [done|].
    simpl. rewrite Hc, star_total by eauto.
    rewrite <- (taken_skipped a t) at 1.
    by rewrite <- append_cons, consumed_append.
Qed.

Lemma search_found l a url g :
  Re.search (literal_then_group l a) url = Some g →
  ∃ pre c t, url = pre +:+ l +:+ String c t ∧ Re.accepts a c = true ∧
             g = Some (String c (taken a t)).
Proof.
  induction url as [|x url IH]; simpl.
  - destruct (Re.run _ _ _ _) as [g'|] eqn:Hrun; [|done].
    intros [= <-]. apply run_literal_then_group in Hrun as (c & t & E & Hc & ->).
    exists EmptyString, c, t. split; [exact E|done].
  - destruct (Re.run _ (String x url) _ _) as [g'|] eqn:Hrun.
    + intros [= <-].
      apply run_literal_then_group in Hrun as (c & t & E & Hc & ->).
      exists EmptyString, c, t. split; [exact E|done].
    + intros Hs. destruct (IH Hs) as (pre & c & t & -> & Hc & ->).
      by exists (String x pre), c, t.
Qed.

Lemma search_finds l a pre c t :
  Re.accepts a c = true →
  is_Some (Re.search (literal_then_group l a) (pre +:+ l +:+ String c t)).
Proof.
  intros Hc.
  assert (Hhere : is_Some (Re.run (literal_then_group l a) (l +:+ String c t)
                             None (λ _ g, Some g))).
  { eexists. apply run_literal_then_group. eauto. }
  induction pre as [|x pre IH].
  - rewrite append_nil_l. destruct Hhere as [g Hg].
    destruct (l +:+ String c t); simpl; simpl in Hg; rewrite Hg; eauto.
  - rewrite append_cons. simpl.
    destruct (Re.run _ (String x _) _ _); [eauto|exact IH].
Qed.

Lemma search_none l a url :
  Re.search (literal_then_group l a) url = None →
  ¬ ∃ pre c t, url = pre +:+ l +:+ String c t ∧ Re.accepts a c = true.
Proof.
  intros Hnone (pre & c & t & -> & Hc).
  destruct (search_finds l a pre c t Hc) as [g Hg]. congruence.
Qed.

Lemma accepts_except c x : Re.accepts (Re.Except c) x = true ↔ x ≠ c.
Proof.
  simpl. rewrite negb_true_iff. destruct (Ascii.eqb_spec c x); split; congruence.
Qed.

(** The second pattern matches only where the first one does. *)
Lemma playlist_pattern_is_list_pattern url g :
  Re.search playlist_pattern url = Some g →
  is_Some (Re.search list_pattern url).
Proof.
  intros Hs. apply (search_found "youtube.com/playlist?list=") in Hs
    as (pre & c & t & -> & Hc & _).
  change ("youtube.com/playlist?list=" +:+ String c t)
    with ("youtube.com/playlist?" +:+ "list=" +:+ String c t).
  rewrite <- append_assoc. by apply (search_finds "list=").
Qed.

Lemma extract_playlist_id_search url :
  extract_playlist_id url =
    match Re.search list_pattern url with
    | Some g => g
    | None => None
    end.
Proof.
  unfold extract_playlist_id. simpl.
  destruct (Re.search list_pattern url) as [g|] eqn:H1; [done|].
  destruct (Re.search playlist_pattern url) as [g|] eqn:H2; [|done].
  apply playlist_pattern_is_list_pattern in H2 as [g' Hg']. congruence.
Qed.

End Patterns.

(** ** [extract_playlist_id] *)

Section PlaylistId.

#[local] Arguments String.append : simpl nomatch.

Lemma str_in_char_cons c x s :
  Str.str_in (String c EmptyString) (String x s) =
    Ascii.eqb c x || Str.str_in (String c EmptyString) s.
Proof.
  simpl. destruct (ascii_dec c x) as [->|Hne].
  - rewrite Ascii.eqb_refl. by destruct s.
  - by apply Ascii.eqb_neq in Hne as ->.
Qed.

Lemma taken_except_free c s :
  Str.str_in (String c EmptyString) (taken (Re.Except c) s) = false.
Proof.
  induction s as [|x s IH]; [done|]. cbn [taken Re.accepts].
  destruct (Ascii.eqb c x) eqn:Hx; [done|]. cbn [negb].
  by rewrite str_in_char_cons, Hx, IH.
Qed.

Lemma skipped_except_starts c s :
  skipped (Re.Except c) s = EmptyString ∨
  ∃ r, skipped (Re.Except c) s = String c r.
Proof.
  induction s as [|x s IH]; [by left|]. cbn [skipped Re.accepts].
  destruct (Ascii.eqb_spec c x) as [<-|_]; cbn [negb]; [right; eauto|done].
Qed.

Lemma taken_except_append c t rest :
  Str.str_in (String c EmptyString) t = false →
  rest = EmptyString ∨ (∃ r, rest = String c r) →
  taken (Re.Except c) (t +:+ rest) = t.
Proof.
  intros Ht Hrest. induction t as [|x t IH].
  - rewrite append_nil_l. destruct Hrest as [->|[r ->]]; [done|].
    cbn [taken Re.accepts]. by rewrite Ascii.eqb_refl.
  - rewrite str_in_char_cons in Ht. apply orb_false_iff in Ht as [Hx Ht].
    rewrite append_cons. cbn [taken Re.accepts]. rewrite Hx. cbn [negb].
    by rewrite IH.
Qed.

Lemma search_here r s g :
  Re.run r s None (λ _ g, Some g) = Some g → Re.search r s = Some g.
Proof. intros Hrun. destruct s; simpl; by rewrite Hrun. Qed.

(** [list=] does not begin inside what comes before it and end in it. *)
Lemma list_literal_no_overlap p x y :
  p ≠ EmptyString →
  String.prefix "list=" p = false →
  p +:+ "list=" +:+ x = "list=" +:+ y →
  False.
Proof.
  intros Hp Hpre E.
  destruct p as [|a1 [|a2 [|a3 [|a4 [|a5 p]]]]]; [done|..];
    simpl in E; simplify_eq.
  simpl in Hpre. by destruct p.
Qed.

(** X5. An id that [extract_playlist_id] returns stands in the URL right
    after a [list=]; it is not empty, has no ampersand in it, and goes up
    to the next ampersand or to the end of the URL. *)
Theorem extract_playlist_id_shape url id :
  extract_playlist_id url = Some id →
  ∃ pre rest,
    url = pre +:+ "list=" +:+ id +:+ rest ∧
    id ≠ EmptyString ∧
    Str.str_in "&" id = false ∧
    (rest = EmptyString ∨ ∃ r, rest = String "&" r).
Proof.
  rewrite extract_playlist_id_search.
  destruct (Re.search list_pattern url) as [g|] eqn:Hs; [|done].
  intros ->. apply (search_found "list=") in Hs as (pre & c & t & -> & Hc & E).
  injection E as ->.
  exists pre, (skipped (Re.Except "&") t). split; [|split; [done|split]].
  - by rewrite (append_cons c (taken _ t)), taken_skipped.
  - apply accepts_except in Hc. rewrite str_in_char_cons.
    apply orb_false_iff. split; [|apply taken_except_free].
    apply Ascii.eqb_neq. congruence.
  - apply skipped_except_starts.
Qed.

(** X6. [extract_playlist_id] returns nothing exactly when no [list=] of
    the URL is followed by a character other than the ampersand. *)
Theorem extract_playlist_id_none url :
  extract_playlist_id url = None ↔ ¬ has_list_id url.
Proof.
  rewrite extract_playlist_id_search. split.
  - destruct (Re.search list_pattern url) as [g|] eqn:Hs.
    + intros ->. by apply (search_found "list=") in Hs as (? & ? & ? & _ & _ & ?).
    + intros _ (pre & c & t & E & Hc).
      apply (search_none "list=") in Hs. apply Hs.
      exists pre, c, t. split; [done|]. by apply accepts_except.
  - intros Hno. destruct (Re.search list_pattern url) as [g|] eqn:Hs; [|done].
    apply (search_found "list=") in Hs as (pre & c & t & E & Hc & _).
    destruct Hno. exists pre, c, t. split; [done|]. by apply accepts_except.
Qed.

(** X7. The second pattern of [extract_playlist_id] never decides: the
    first one alone gives the same result on every URL. *)
Theorem extract_playlist_id_first_pattern url :
  extract_playlist_id url = first_group [list_pattern] url.
Proof.
  rewrite extract_playlist_id_search. simpl.
  by destruct (Re.search list_pattern url).
Qed.

(** X8. Round trip: after a prefix without [list=], [list=] followed by a
    non-empty id without ampersand, and then the end of the URL or an
    ampersand, [extract_playlist_id] returns that id. *)
Theorem extract_playlist_id_finds pre id rest :
  Str.str_in "list=" pre = false →
  id ≠ EmptyString →
  Str.str_in "&" id = false →
  rest = EmptyString ∨ (∃ r, rest = String "&" r) →
  extract_playlist_id (pre +:+ "list=" +:+ id +:+ rest) = Some id.
Proof.
  intros Hpre Hid Hamp Hrest. rewrite extract_playlist_id_search.
  destruct id as [|c t]; [done|]. rewrite str_in_char_cons in Hamp.
  apply orb_false_iff in Hamp as [Hc Ht].
  assert (Hacc : Re.accepts (Re.Except "&") c = true).
  { apply accepts_except. apply Ascii.eqb_neq in Hc. congruence. }
  enough (Re.search list_pattern (pre +:+ "list=" +:+ String c t +:+ rest)
          = Some (Some (String c t))) as -> by done.
  induction pre as [|x pre IH].
  - rewrite append_nil_l. apply search_here.
    apply (run_literal_then_group "list="). exists c, (t +:+ rest).
    split; [done|]. split; [done|]. by rewrite taken_except_append.
  - simpl in Hpre. apply orb_false_iff in Hpre as [Hhere Hpre].
    rewrite append_cons.
    destruct (Re.run list_pattern
                (String x (pre +:+ "list=" +:+ String c t +:+ rest)) None
                (λ _ g, Some g)) as [g|] eqn:Hrun.
    + apply (run_literal_then_group "list=") in Hrun as (c' & t' & E & _).
      rewrite <- append_cons in E.
      by destruct (list_literal_no_overlap (String x pre) _ _ ltac:(done) Hhere E).
    + simpl. simpl in Hrun. rewrite Hrun. by apply IH.
Qed.

End PlaylistId.

Lemma extract_playlist_id_shape_sample :
  ∃ pre rest,
    "https://www.youtube.com/watch?v=abc&list=PL123&index=2" =
      pre +:+ "list=" +:+ "PL123" +:+ rest ∧
    "PL123" ≠ EmptyString ∧
    Str.str_in "&" "PL123" = false ∧
    (rest = EmptyString ∨ ∃ r, rest = String "&" r).
Proof.
  apply (extract_playlist_id_shape
           "https://www.youtube.com/watch?v=abc&list=PL123&index=2" "PL123").
  reflexivity.
Defined.

Lemma extract_playlist_id_finds_sample :
  extract_playlist_id
    ("https://www.youtube.com/playlist?" +:+ "list=" +:+ "PLx9" +:+ EmptyString)
  = Some "PLx9".
Proof.
  apply extract_playlist_id_finds.
  - reflexivity.
  - discriminate.
  - reflexivity.
  - left. reflexivity.
Defined.

(** ** More on the functions of the script *)

Section Functions.

Context `{PyLib} (w : world).

#[local] Arguments Str.repeat : simpl never.


(** X10. Whatever the probe does, [get_playlist_info] runs one command,
    the metadata probe of the URL, shows no prompt and leaves the
    filesystem as it is. *)
Theorem get_playlist_info_frame url s :
  let r := get_playlist_info w url s in
  fs r.2 = fs s ∧
  ∃ evs, trace r.2 = trace s ++ evs ∧
         commands evs = [probe_cmd url] ∧ prompts evs = [].
Proof.
  cbv zeta. rewrite get_playlist_info_run.
  destruct (run_process w (probe_cmd url)) as [rc out| |];
    [destruct (rc =? 0)|..]; simpl; (split; [done|]);
    rewrite <- ?app_assoc; eexists; (split; [reflexivity|]); done.
Qed.

(** X11. A line that parses to a JSON value other than an object changes
    neither the tracks nor the title, also when the value is an array or a
    string in which ['title'] and ['id'] are found. *)
Theorem scan_line_not_object st line data :
  json_loads line = Some data →
  (∀ d, data ≠ JDict d) →
  scan_line st line = st.
Proof.
  intros Hload Hnd. rewrite scan_line_spec.
  unfold track_of_line, playlist_title_of_line, record_of_line.
  rewrite Hload.
  assert (Hrec : match data with JDict d => Some d | _ => None end = None).
  { destruct data; try done. by destruct (Hnd d). }
  destruct (String.eqb line EmptyString); simpl; rewrite ?Hrec; simpl;
    rewrite app_nil_r; by destruct st, (truthy _).
Qed.

(** X12. When the downloader's binary is not found, [download_album] does
    not catch the [FileNotFoundError]: it escapes, after the directory was
    made and the downloader was tried once. *)
Theorem download_album_binary_missing url dir s :
  can_make (fs s) (path_parts dir) = true →
  run_process w (download_cmd url dir) = NoSuchFile →
  let r := download_album w url dir s in
  r.1 = Raise FileNotFoundError ∧
  path_parts dir ∈ dirs (fs r.2) ∧
  ∃ evs, trace r.2 = trace s ++ evs ∧ commands evs = [download_cmd url dir].
Proof.
  intros Hcan Hrun. cbv zeta. rewrite download_album_run. cbv zeta.
  rewrite Hcan, Hrun. simpl. split; [done|]. split; [apply with_dir_has|].
  by eexists.
Qed.

(** X13. The directory is made once: after a [download_album] that got
    past its [mkdir], another one into the same directory gets past it
    too, runs its downloader and leaves the filesystem as it found it. *)
Theorem download_album_again url url' dir s :
  can_make (fs s) (path_parts dir) = true →
  let r1 := download_album w url dir s in
  let r2 := download_album w url' dir r1.2 in
  fs r2.2 = fs r1.2 ∧
  ∃ evs, trace r2.2 = trace r1.2 ++ evs ∧ commands evs = [download_cmd url' dir].
Proof.
  intros Hcan. cbv zeta.
  assert (Hfs : fs (download_album w url dir s).2 = with_dir (fs s) (path_parts dir)).
  { rewrite download_album_run. cbv zeta. rewrite Hcan.
    destruct (run_process w (download_cmd url dir)) as [rc out| |];
      [destruct (rc =? 0)|..]; reflexivity. }
  assert (Hin : path_parts dir ∈ dirs (fs (download_album w url dir s).2)).
  { rewrite Hfs. apply with_dir_has. }
  rewrite (download_album_run w url' dir). cbv zeta.
  assert (Hcan' : can_make (fs (download_album w url dir s).2) (path_parts dir) = true).
  { apply can_make_spec. by left. }
  assert (Hsame : with_dir (fs (download_album w url dir s).2) (path_parts dir)
                  = fs (download_album w url dir s).2).
  { unfold with_dir. by rewrite bool_decide_true. }
  rewrite Hcan', Hsame.
  destruct (run_process w (download_cmd url' dir)) as [rc out| |];
    [destruct (rc =? 0)|..]; simpl; (split; [done|]);
    rewrite <- ?app_assoc; eexists; (split; [reflexivity|]); done.
Qed.

(** X14. After the directory could be made, a downloader that exits with a
    non-zero status or whose wait is interrupted makes lines 168 to 181 of
    [main] print the failure line last and exit with status 1, the
    downloader having run once. *)
Theorem download_and_report_failure url s :
  can_make (fs s) (path_parts (output_dir_of w)) = true →
  run_process w (download_cmd url (output_dir_of w)) = Interrupted ∨
  (∃ rc out, rc ≠ 0 ∧
     run_process w (download_cmd url (output_dir_of w)) = Exited rc out) →
  let r := download_and_report w url s in
  r.1 = Raise (SystemExit 1) ∧
  ∃ evs, trace r.2 = trace s ++ evs ∧
         commands evs = [download_cmd url (output_dir_of w)] ∧
         last evs =
           Some (EvPrint (nl +:+ "⚠️  Скачивание завершено с ошибками")).
Proof.
  intros Hcan Hrun. cbv zeta.
  rewrite download_and_report_run, download_album_run. cbv zeta. rewrite Hcan.
  destruct Hrun as [->|(rc & out & Hrc & ->)].
  - simpl. split; [done|]. rewrite <- ?app_assoc. by eexists.
  - apply Z.eqb_neq in Hrc. rewrite Hrc. simpl. split; [done|].
    rewrite <- ?app_assoc. by eexists.
Qed.

(** X15. In every run, [main] runs at most three commands, each once and
    in this order: the version query, the metadata probe of its first
    argument and the downloader of that URL into the output directory.  It
    shows at most one prompt, and all it changes in the filesystem is to
    make the output directory. *)
Theorem main_effects f0 :
  let r := main w (start f0) in
  commands (trace r.2) `prefix_of`
    [version_cmd; probe_cmd (url_of w);
     download_cmd (url_of w) (output_dir_of w)] ∧
  (length (prompts (trace r.2)) ≤ 1)%nat ∧
  (fs r.2 = f0 ∨ fs r.2 = with_dir f0 (path_parts (output_dir_of w))).
Proof.
  cbv zeta.
  assert (Htail : ∀ s,
    commands (trace s) = [version_cmd; probe_cmd (url_of w)] →
    (length (prompts (trace s)) ≤ 1)%nat →
    fs s = f0 →
    let r := download_and_report w (url_of w) s in
    commands (trace r.2) `prefix_of`
      [version_cmd; probe_cmd (url_of w);
       download_cmd (url_of w) (output_dir_of w)] ∧
    (length (prompts (trace r.2)) ≤ 1)%nat ∧
    (fs r.2 = f0 ∨ fs r.2 = with_dir f0 (path_parts (output_dir_of w)))).
  { intros s Hcmds Hprompts Hfs. cbv zeta.
    rewrite download_and_report_run, download_album_run. cbv zeta. rewrite Hfs.
    destruct (can_make f0 _).
    - destruct (run_process w (download_cmd _ _)) as [rc out| |];
        [destruct (rc =? 0)|..]; simpl.
      all: rewrite <- ?app_assoc, commands_app, prompts_app, Hcmds; simpl.
      all: rewrite app_nil_r.
      all: split; [by exists []|]; split; [done|by right].
    - simpl. rewrite commands_app, prompts_app, Hcmds. simpl.
      rewrite app_nil_r. split; [by eexists|]. split; [done|by left]. }
  rewrite main_run, check_dependencies_run. simpl.
  destruct (run_process w version_cmd) as [rc vout| |];
    [destruct (rc =? 0)|..]; simpl.
  2-4: split; [by eexists|]; split; [lia|by left].
  unfold url_of in *.
  destruct (args w) as [|url rest] eqn:Hargs; simpl.
  { split; [by eexists|]. split; [lia|by left]. }
  destruct (youtube_url url); simpl;
    [|split; [by eexists|]; split; [lia|by left]].
  rewrite get_playlist_info_run. simpl.
  destruct (run_process w (probe_cmd url)) as [rc' out| |];
    [destruct (rc' =? 0)|..]; simpl.
  - destruct (read_input w _) as [r| |]; simpl.
    + destruct (String.eqb (Str.lower r) "y"); simpl.
      * apply Htail; simpl; [done|lia|done].
      * split; [by eexists|]. split; [lia|by left].
    + split; [by eexists|]. split; [lia|by left].
    + split; [by eexists|]. split; [lia|by left].
  - apply Htail; simpl; [done|lia|done].
  - split; [by eexists|]. split; [lia|by left].
  - split; [by eexists|]. split; [lia|by left].
Qed.

(** X16. When the metadata probe cannot be run or its wait is
    interrupted, the exception escapes [main]: the run ends there, with no
    prompt shown and no downloader run. *)
Theorem main_probe_crash f0 url rest vout :
  run_process w version_cmd = Exited 0 vout →
  args w = url :: rest →
  youtube_url url = true →
  run_process w (probe_cmd url) = NoSuchFile ∨
  run_process w (probe_cmd url) = Interrupted →
  let r := main w (start f0) in
  crashed r.1 = true ∧
  commands (trace r.2) = [version_cmd; probe_cmd url] ∧
  prompts (trace r.2) = [] ∧
  fs r.2 = f0.
Proof.
  intros Hv Hargs Hurl Hp. cbv zeta.
  rewrite main_run, check_dependencies_run, Hv, Hargs, Hurl. simpl.
  rewrite get_playlist_info_run. by destruct Hp as [-> | ->].
Qed.

(** X17. End to end: with the dependency there, a valid URL, a probe that
    succeeded, the answer [y] or [Y], a directory that can be made and a
    downloader that exits with status 0, [main] returns (exit status 0);
    it ran the three commands, and the downloader started with the output
    directory in place. *)
Theorem main_downloads f0 url rest vout out r dout :
  run_process w version_cmd = Exited 0 vout →
  args w = url :: rest →
  youtube_url url = true →
  run_process w (probe_cmd url) = Exited 0 out →
  read_input w (confirm_prompt (playlist_of_stdout out)) = Line r →
  r = "y" ∨ r = "Y" →
  can_make f0 (path_parts (output_dir_of w)) = true →
  run_process w (download_cmd url (output_dir_of w)) = Exited 0 dout →
  ∃ s',
    main w (start f0) = (Return tt, s') ∧
    commands (trace s') =
      [version_cmd; probe_cmd url; download_cmd url (output_dir_of w)] ∧
    path_parts (output_dir_of w) ∈ dirs (fs s') ∧
    ∃ seen, EvRun (download_cmd url (output_dir_of w)) seen ∈ trace s' ∧
            path_parts (output_dir_of w) ∈ dirs seen.
Proof.
  intros Hv Hargs Hurl Hp Hin Hr Hcan Hd. apply lower_y in Hr.
  rewrite main_run, check_dependencies_run, Hv, Hargs, Hurl. simpl.
  rewrite get_playlist_info_run, Hp. simpl. rewrite Hin, Hr. simpl.
  rewrite download_and_report_run, download_album_run. cbv zeta. simpl.
  rewrite Hcan, Hd. simpl.
  eexists. split; [reflexivity|]. simpl. split; [reflexivity|].
  split; [apply with_dir_has|].
  exists (with_dir f0 (path_parts (output_dir_of w))).
  split; [|apply with_dir_has].
  repeat constructor.
Qed.

End Functions.

(** ** The string operations of the script *)

Section Strings.

#[local] Arguments String.append : simpl nomatch.

Lemma prefix_iff p s : String.prefix p s = true ↔ ∃ b, s = p +:+ b.
Proof.
  revert s. induction p as [|c p IH]; intros s; simpl.
  - split; [intros _; by exists s|by destruct s].
  - destruct s as [|x s]; simpl; [split; [done|by intros [b E]]|].
    destruct (ascii_dec c x) as [->|Hne].
    + rewrite IH. split; intros [b E]; exists b; [by rewrite E|by injection E].
    + split; [done|]. intros [b E]. by injection E as <- _.
Qed.

Lemma str_in_iff sub s : Str.str_in sub s = true ↔ ∃ a b, s = a +:+ sub +:+ b.
Proof.
  induction s as [|x s IH]; cbn [Str.str_in].
  - rewrite orb_false_r, prefix_iff. split.
    + intros [b E]. by exists EmptyString, b.
    + intros (a & b & E). destruct a; [by exists b|done].
  - rewrite orb_true_iff, prefix_iff, IH. split.
    + intros [[b E]|(a & b & E)].
      * by exists EmptyString, b.
      * exists (String x a), b. by rewrite E.
    + intros (a & b & E). destruct a as [|y a].
      * left. by exists b.
      * right. injection E as -> ->. eauto.
Qed.

(** X18. The URL test of [main] is containment anywhere: a URL passes
    exactly when [youtube.com] or [youtu.be] stands somewhere in it. *)
Theorem youtube_url_iff url :
  youtube_url url = true ↔
  ∃ a b, url = a +:+ "youtube.com" +:+ b ∨ url = a +:+ "youtu.be" +:+ b.
Proof.
  unfold youtube_url. rewrite orb_true_iff, !str_in_iff. split.
  - intros [(a & b & E)|(a & b & E)]; exists a, b; auto.
  - intros (a & b & [E|E]); eauto.
Qed.

Lemma split_cons sep s : ∃ w ws, Str.split sep s = w :: ws.
Proof.
  destruct s as [|c s]; simpl; [eauto|].
  destruct (Ascii.eqb c sep); [eauto|]. destruct (Str.split sep s); eauto.
Qed.

Lemma join_cons sep w l :
  l ≠ [] → join sep (w :: l) = w +:+ sep +:+ join sep l.
Proof. by destruct l. Qed.

Lemma join_split sep s :
  join (String sep EmptyString) (Str.split sep s) = s.
Proof.
  induction s as [|c s IH]; simpl; [done|].
  destruct (Ascii.eqb_spec c sep) as [->|Hne].
  - destruct (split_cons sep s) as (w & ws & E).
    rewrite join_cons by (rewrite E; done). by rewrite IH.
  - destruct (Str.split sep s) as [|w ws] eqn:E.
    { destruct (split_cons sep s) as (? & ? & ?). congruence. }
    destruct ws as [|w' ws]; simpl in *; by rewrite <- IH.
Qed.

Lemma split_free sep s :
  Forall (λ l, Str.str_in (String sep EmptyString) l = false) (Str.split sep s).
Proof.
  induction s as [|c s IH]; simpl; [by constructor|].
  destruct (Ascii.eqb_spec c sep) as [->|Hne].
  - by constructor.
  - destruct (Str.split sep s) as [|w ws] eqn:E.
    { destruct (split_cons sep s) as (? & ? & ?). congruence. }
    inversion IH as [|? ? Hw Hws]; subst. constructor; [|done].
    rewrite str_in_char_cons, Hw, orb_false_r. apply Ascii.eqb_neq. congruence.
Qed.

End Strings.

(** X19. The lines [get_playlist_info] loops over are the pieces of the
    stripped output between its newlines: there is at least one, none
    holds a newline, and joined by newlines they give the stripped output
    back. *)
Theorem stdout_lines_join out :
  stdout_lines out ≠ [] ∧
  Forall (λ l, Str.str_in nl l = false) (stdout_lines out) ∧
  join nl (stdout_lines out) = Str.strip out.
Proof.
  unfold stdout_lines, nl. split; [|split].
  - by destruct (split_cons "010" (Str.strip out)) as (w & ws & ->).
  - apply split_free.
  - apply join_split.
Qed.

(** ** The further properties on sample runs *)

(** X11 on an array that holds both names. *)
Lemma scan_line_not_object_sample :
  @scan_line array_lib {| videos := []; playlist_title := JNull |} array_text
  = {| videos := []; playlist_title := JNull |}.
Proof.
  apply (@scan_line_not_object array_lib _ array_text
           (JList [JStr "title"; JStr "id"])).
  - reflexivity.
  - intros d. discriminate.
Defined.

(** X12 on a machine that lost the binary after the dependency check. *)
Lemma download_album_binary_missing_sample :
  (@download_album sample_lib
     (sample_world (Exited 0 "2024.08.06") (Exited 1 "") NoSuchFile
        (Line "y") [sample_url])
     sample_url "downloads" (start cwd_only)).1 = Raise FileNotFoundError ∧
  path_parts "downloads" ∈
    dirs (fs (@download_album sample_lib
                (sample_world (Exited 0 "2024.08.06") (Exited 1 "") NoSuchFile
                   (Line "y") [sample_url])
                sample_url "downloads" (start cwd_only)).2) ∧
  ∃ evs,
    trace (@download_album sample_lib
             (sample_world (Exited 0 "2024.08.06") (Exited 1 "") NoSuchFile
                (Line "y") [sample_url])
             sample_url "downloads" (start cwd_only)).2
    = trace (start cwd_only) ++ evs ∧
    commands evs = [download_cmd sample_url "downloads"].
Proof.
  apply (@download_album_binary_missing sample_lib); reflexivity.
Defined.

(** X13 on two downloads into the default directory. *)
Lemma download_album_again_sample :
  let w :=
    sample_world (Exited 0 "2024.08.06") (Exited 1 "") (Exited 0 "")
      (Line "y") [sample_url] in
  let r1 := @download_album sample_lib w sample_url "downloads" (start cwd_only) in
  let r2 := @download_album sample_lib w sample_url "downloads" r1.2 in
  fs r2.2 = fs r1.2 ∧
  ∃ evs, trace r2.2 = trace r1.2 ++ evs ∧
         commands evs = [download_cmd sample_url "downloads"].
Proof.
  apply (@download_album_again sample_lib). reflexivity.
Defined.

(** X14 on a downloader that exits with status 1. *)
Lemma download_and_report_failure_sample :
  let w :=
    sample_world (Exited 0 "2024.08.06") (Exited 1 "") (Exited 1 "")
      (Line "y") [sample_url] in
  let r := @download_and_report sample_lib w sample_url (start cwd_only) in
  r.1 = Raise (SystemExit 1) ∧
  ∃ evs, trace r.2 = trace (start cwd_only) ++ evs ∧
         commands evs = [download_cmd sample_url (output_dir_of w)] ∧
         last evs =
           Some (EvPrint (nl +:+ "⚠️  Скачивание завершено с ошибками")).
Proof.
  apply (@download_and_report_failure sample_lib).
  - reflexivity.
  - right. exists 1, EmptyString. split; [lia|reflexivity].
Defined.

(** X16 on a binary that went missing before the probe. *)
Lemma main_probe_crash_sample :
  let w :=
    sample_world (Exited 0 "2024.08.06") NoSuchFile (Exited 0 "")
      (Line "y") [sample_url] in
  let r := @main sample_lib w (start cwd_only) in
  crashed r.1 = true ∧
  commands (trace r.2) = [version_cmd; probe_cmd sample_url] ∧
  prompts (trace r.2) = [] ∧
  fs r.2 = cwd_only.
Proof.
  apply (@main_probe_crash sample_lib _ cwd_only sample_url [] "2024.08.06").
  - reflexivity.
  - reflexivity.
  - reflexivity.
  - left. reflexivity.
Defined.

(** X17 on the answer [y] and an output directory given as argument. *)
Lemma main_downloads_sample :
  let w :=
    sample_world (Exited 0 "2024.08.06") (Exited 0 sample_stdout)
      (Exited 0 "") (Line "y") [sample_url; "music"] in
  ∃ s',
    @main sample_lib w (start cwd_only) = (Return tt, s') ∧
    commands (trace s') =
      [version_cmd; probe_cmd sample_url;
       download_cmd sample_url (output_dir_of w)] ∧
    path_parts (output_dir_of w) ∈ dirs (fs s') ∧
    ∃ seen, EvRun (download_cmd sample_url (output_dir_of w)) seen ∈ trace s' ∧
            path_parts (output_dir_of w) ∈ dirs seen.
Proof.
  apply (@main_downloads sample_lib _ cwd_only sample_url ["music"]
           "2024.08.06" sample_stdout "y" EmptyString).
  - reflexivity.
  - reflexivity.
  - reflexivity.
  - reflexivity.
  - reflexivity.
  - left. reflexivity.
  - reflexivity.
  - reflexivity.
Defined.

Section Prompt.

Context `{PyLib} (w : world).

#[local] Arguments Str.repeat : simpl never.

(** X20. When the prompt meets the end of its input or the operator's
    interrupt, the exception escapes [main]: one prompt was shown, the
    downloader was not run and nothing was made. *)
Theorem main_prompt_crash f0 url rest vout out :
  run_process w version_cmd = Exited 0 vout →
  args w = url :: rest →
  youtube_url url = true →
  run_process w (probe_cmd url) = Exited 0 out →
  read_input w (confirm_prompt (playlist_of_stdout out)) = EndOfFile ∨
  read_input w (confirm_prompt (playlist_of_stdout out)) = Break →
  let r := main w (start f0) in
  (r.1 = Raise EOFError ∨ r.1 = Raise KeyboardInterrupt) ∧
  commands (trace r.2) = [version_cmd; probe_cmd url] ∧
  prompts (trace r.2) = [confirm_prompt (playlist_of_stdout out)] ∧
  fs r.2 = f0.
Proof.
  intros Hv Hargs Hurl Hp Hin. cbv zeta.
  rewrite main_run, check_dependencies_run, Hv, Hargs, Hurl. simpl.
  rewrite get_playlist_info_run, Hp. simpl.
  destruct Hin as [-> | ->]; simpl; auto.
Qed.

End Prompt.

(** X20 on a run whose input is closed. *)
Lemma main_prompt_crash_sample :
  let w :=
    sample_world (Exited 0 "2024.08.06") (Exited 0 sample_stdout)
      (Exited 0 "") EndOfFile [sample_url] in
  let r := @main sample_lib w (start cwd_only) in
  (r.1 = Raise EOFError ∨ r.1 = Raise KeyboardInterrupt) ∧
  commands (trace r.2) = [version_cmd; probe_cmd sample_url] ∧
  prompts (trace r.2) =
    [confirm_prompt (@playlist_of_stdout sample_lib sample_stdout)] ∧
  fs r.2 = cwd_only.
Proof.
  apply (@main_prompt_crash sample_lib _ cwd_only sample_url []
           "2024.08.06" sample_stdout).
  - reflexivity.
  - reflexivity.
  - reflexivity.
  - reflexivity.
  - left. reflexivity.
Defined.
